(** * rfnoc_modtool: the ModTool base class (modtool_base.py)

    A shallow embedding of the directory-inspection and path-resolution
    methods of [ModTool] ([_check_directory], [_get_mainswigfile],
    [_setup_files] and [setup]) together with the properties of the
    layout-detection logic.

    Python dictionaries are finite maps with string keys, instance
    attributes are the fields of one record that is threaded through the
    methods, and exceptions are an explicit outcome that keeps the state
    reached when they are raised. *)

From Stdlib Require Import String Ascii List Bool.
From stdpp Require Import base option strings gmap fin_maps list.

Local Open Scope string_scope.

(** ** Python values and library functions used by the module *)

Module Py.

(** The values stored in [self._info]: [None], booleans and strings. *)
Inductive pyval : Type :=
| VNone
| VBool (b : bool)
| VStr (s : string).

#[global] Instance pyval_eq_dec : EqDecision pyval.
Proof. solve_decision. Defined.

(** Truth value of an object in a condition ([if x:]). *)
Definition truthy (v : pyval) : bool :=
  match v with
  | VNone => false
  | VBool b => b
  | VStr s => negb (String.eqb s "")
  end.

(** [str(x)], the conversion done by the [%s] format. *)
Definition py_str (v : pyval) : string :=
  match v with
  | VNone => "None"
  | VBool true => "True"
  | VBool false => "False"
  | VStr s => s
  end.

(** The exceptions the methods can leave with.  [IOError] is a failed
    [open(f).read()]; [OSError] is what [os.path.abspath] raises when
    the working directory of the process is gone. *)
Inductive pyexn : Type :=
| KeyError (k : string)
| TypeError
| IOError
| OSError
| ModToolException (msg : string).

(** [b.startswith('/')] *)
Definition startswith_sep (b : string) : bool :=
  match b with
  | String c _ => Ascii.eqb c "/"
  | EmptyString => false
  end.

(** [path.endswith('/')] *)
Fixpoint endswith_sep (path : string) : bool :=
  match path with
  | EmptyString => false
  | String c EmptyString => Ascii.eqb c "/"
  | String _ rest => endswith_sep rest
  end.

(** One round of the loop of [posixpath.join]: an absolute component
    replaces what was joined so far, otherwise it is appended, with a
    separator unless the path is empty or already ends with one. *)
Definition join_step (path b : string) : string :=
  if startswith_sep b then b
  else if String.eqb path "" || endswith_sep path then path +:+ b
  else path +:+ "/" +:+ b.

(** [os.path.join(a, *p)] on strings. *)
Definition os_path_join (a : string) (p : list string) : string :=
  fold_left join_step p a.

(** [re.search(pat, text) is not None] for a pattern that stands for a
    fixed string: the two patterns of the module, the escaped
    [find_package\(Gnuradio] and [GR_REGISTER_COMPONENT], match exactly
    the texts that contain the string somewhere. *)
Fixpoint re_search_literal (lit text : string) : bool :=
  String.prefix lit text ||
  match text with
  | EmptyString => false
  | String _ rest => re_search_literal lit rest
  end.

End Py.
Import Py.

Arguments os_path_join : simpl never.
Arguments String.append : simpl never.

(** ** The environment: file system and command line *)

(** What the module asks of the operating system.  Relative paths are
    resolved against the working directory of the process, so every
    query takes it as its first argument.  [get_modname] is the helper of
    [util_functions] that [setup] calls when no module name was given;
    its result is taken as it comes.  [abspath] of a relative path asks
    for the working directory and fails with it. *)
Record OS : Type := mkOS {
  listdir : string -> string -> option (list string);  (* None: OSError *)
  chdir : string -> string -> option string;           (* the new working directory *)
  abspath : string -> string -> option string;         (* None: OSError *)
  isfile : string -> string -> bool;
  isdir : string -> string -> bool;
  read_text : string -> string -> option string;       (* open(f).read() *)
  get_modname : string -> option string
}.

Inductive scm_choice : Type := scm_yes | scm_no | scm_auto.

(** The namespace built by the parser of [setup_parser]. *)
Record Args : Type := mkArgs {
  directory : string;
  module_name : option string;
  block_name : option string;
  skip_lib : bool;
  skip_swig : bool;
  skip_python : bool;
  skip_grc : bool;
  skip_examples : bool;
  skip_rfnoc : bool;
  scm_mode : scm_choice;
  yes : bool
}.

(** Without options every flag is off and the directory is the cwd. *)
Definition default_args : Args :=
  mkArgs "." None None false false false false false false scm_no false.

(** ** The object *)

(** The attributes of a [ModTool] instance that the methods below read
    or write, and the working directory of the process, which
    [_check_directory] changes. *)
Record ModTool : Type := mkModTool {
  _has_subdirs : gmap string bool;
  _skip_subdirs : gmap string bool;
  _info : gmap string pyval;
  _file : gmap string string;
  _dir : option string;
  cwd : string
}.

Definition _subdirs : list string :=
  ["lib"; "include"; "python"; "swig"; "grc"; "examples"; "rfnoc"].

(** [__init__]: every known subdirectory starts absent and not skipped. *)
Definition all_false (names : list string) : gmap string bool :=
  fold_left (fun m subdir => <[subdir := false]> m) names ∅.

Definition __init__ (wd : string) : ModTool :=
  mkModTool (all_false _subdirs) (all_false _subdirs) ∅ ∅ None wd.

Definition with_has_subdirs (f : gmap string bool -> gmap string bool) (s : ModTool) : ModTool :=
  mkModTool (f (_has_subdirs s)) (_skip_subdirs s) (_info s) (_file s) (_dir s) (cwd s).
Definition with_skip_subdirs (f : gmap string bool -> gmap string bool) (s : ModTool) : ModTool :=
  mkModTool (_has_subdirs s) (f (_skip_subdirs s)) (_info s) (_file s) (_dir s) (cwd s).
Definition with_info (f : gmap string pyval -> gmap string pyval) (s : ModTool) : ModTool :=
  mkModTool (_has_subdirs s) (_skip_subdirs s) (f (_info s)) (_file s) (_dir s) (cwd s).
Definition with_file (f : gmap string string -> gmap string string) (s : ModTool) : ModTool :=
  mkModTool (_has_subdirs s) (_skip_subdirs s) (_info s) (f (_file s)) (_dir s) (cwd s).
Definition with_dir (d : option string) (s : ModTool) : ModTool :=
  mkModTool (_has_subdirs s) (_skip_subdirs s) (_info s) (_file s) d (cwd s).
Definition with_cwd (wd : string) (s : ModTool) : ModTool :=
  mkModTool (_has_subdirs s) (_skip_subdirs s) (_info s) (_file s) (_dir s) wd.

(** ** Methods as state transformers that may raise *)

Inductive outcome (A : Type) : Type :=
| Return (a : A) (s : ModTool)
| Raise (e : pyexn) (s : ModTool).
Arguments Return {A} a s.
Arguments Raise {A} e s.

Definition final {A} (o : outcome A) : ModTool :=
  match o with Return _ s => s | Raise _ s => s end.

Definition M (A : Type) : Type := OS -> ModTool -> outcome A.

Definition ret {A} (a : A) : M A := fun _ s => Return a s.
Definition raise {A} (e : pyexn) : M A := fun _ s => Raise e s.
Definition bind {A B} (c : M A) (k : A -> M B) : M B :=
  fun os s =>
    match c os s with
    | Return a s' => k a os s'
    | Raise e s' => Raise e s'
    end.

Notation "'do' x <- c ; k" := (bind c (fun x => k))
  (at level 10, x name, c at level 100, k at level 200).
Notation "c ;; k" := (bind c (fun _ => k))
  (at level 100, k at level 200, right associativity).

Definition when (b : bool) (c : M unit) : M unit := if b then c else ret tt.

(** Reading the state and the environment. *)
Definition attr {A} (proj : ModTool -> A) : M A := fun _ s => Return (proj s) s.
Definition modify (f : ModTool -> ModTool) : M unit := fun _ s => Return tt (f s).
Definition ask {A} (q : OS -> string -> A) : M A := fun os s => Return (q os (cwd s)) s.

(** [d[k]] raises [KeyError] on a missing key. *)
Definition getitem {V} (proj : ModTool -> gmap string V) (k : string) : M V :=
  fun _ s =>
    match proj s !! k with
    | Some v => Return v s
    | None => Raise (KeyError k) s
    end.

Definition setitem_info (k : string) (v : pyval) : M unit := modify (with_info <[k := v]>).
Definition setitem_file (k : string) (v : string) : M unit := modify (with_file <[k := v]>).
Definition setitem_has_subdirs (k : string) (v : bool) : M unit :=
  modify (with_has_subdirs <[k := v]>).
Definition setitem_skip_subdirs (k : string) (v : bool) : M unit :=
  modify (with_skip_subdirs <[k := v]>).

(** A string where one is needed: concatenation with [+] and
    [os.path.join] raise [TypeError] on anything else. *)
Definition as_str (v : pyval) : M string :=
  match v with
  | VStr s => ret s
  | _ => raise TypeError
  end.

Definition of_option (o : option string) : pyval :=
  match o with
  | Some s => VStr s
  | None => VNone
  end.

(** [os.path.isfile(p)], [os.path.isdir(p)] and [open(p).read()] in the
    current working directory. *)
Definition os_path_isfile (p : string) : M bool := ask (fun os wd => isfile os wd p).
Definition os_path_isdir (p : string) : M bool := ask (fun os wd => isdir os wd p).
Definition open_read (p : string) : M string :=
  do r <- ask (fun os wd => read_text os wd p);
  match r with
  | Some text => ret text
  | None => raise IOError
  end.

(** [os.path.abspath(p)] *)
Definition os_path_abspath (p : string) : M string :=
  do r <- ask (fun os wd => abspath os wd p);
  match r with
  | Some path => ret path
  | None => raise OSError
  end.

(** [a or c], where [c] is only evaluated when [a] is false. *)
Definition or_else (a : bool) (c : M bool) : M bool := if a then ret true else c.

(** [not self._has_subdirs[k]] *)
Definition not_has_subdir (k : string) : M bool :=
  do h <- getitem _has_subdirs k;
  ret (negb h).

(** [if cond: self._skip_subdirs[stage] = True] *)
Definition skip_if (cond : M bool) (stage : string) : M unit :=
  do c <- cond;
  when c (setitem_skip_subdirs stage true).

(** ** [_get_mainswigfile] *)

(** The loop over the candidate names: the first one that is a regular
    file under [os.path.join(self._dir, 'swig', fname)] is returned. *)
Fixpoint first_swig_file (swig_files : list string) : M (option string) :=
  match swig_files with
  | [] => ret None
  | fname :: rest =>
      do d <- attr _dir;
      do d <- as_str (of_option d);
      do found <- os_path_isfile (os_path_join d ["swig"; fname]);
      if found then ret (Some fname) else first_swig_file rest
  end.

Definition _get_mainswigfile : M (option string) :=
  do v <- getitem _info "modname";
  do modname <- as_str v;
  let swig_files := [modname +:+ ".i"; modname +:+ "_swig.i"] in
  first_swig_file swig_files.

(** ** [_check_directory] *)

Definition check_file (f : string) (has_makefile : bool) : M bool :=
  do is_file <- os_path_isfile f;
  if is_file && String.eqb f "CMakeLists.txt" then
    do text <- open_read f;
    if re_search_literal "find_package(Gnuradio" text then
      setitem_info "version" (VStr "36");;
      ret true
    else
      do text <- open_read f;
      if re_search_literal "GR_REGISTER_COMPONENT" text then
        setitem_info "version" (VStr "36");;
        setitem_info "is_component" (VBool true);;
        ret true
      else ret has_makefile
  else
    do is_dir <- os_path_isdir f;
    if is_dir then
      do known <- attr (fun s => bool_decide (is_Some (_has_subdirs s !! f)));
      (if known then setitem_has_subdirs f true else setitem_skip_subdirs f true);;
      ret has_makefile
    else ret has_makefile.

(** [for f in files: ...], threading the local [has_makefile]. *)
Fixpoint check_files (files : list string) (has_makefile : bool) : M bool :=
  match files with
  | [] => ret has_makefile
  | f :: rest =>
      do has_makefile <- check_file f has_makefile;
      check_files rest has_makefile
  end.

(** The [try] block: [None] when [os.listdir] or [os.chdir] raised
    [OSError]; otherwise the listing, with the working directory changed. *)
Definition listdir_chdir (directory : string) : M (option (list string)) :=
  fun os s =>
    match listdir os (cwd s) directory with
    | None => Return None s
    | Some files =>
        match chdir os (cwd s) directory with
        | None => Return None s
        | Some wd => Return (Some files) (with_cwd wd s)
        end
    end.

(** [bool(x)] of a list. *)
Definition py_bool_list {A} (l : list A) : bool :=
  match l with
  | [] => false
  | _ :: _ => true
  end.

(** [d.values()] *)
Definition values (d : gmap string bool) : list bool := (map_to_list d).*2.

Definition _check_directory (directory : string) : M bool :=
  do files <- listdir_chdir directory;
  match files with
  | None => ret false
  | Some files =>
      setitem_info "is_component" (VBool false);;
      do has_makefile <- check_files files false;
      do vals <- attr (fun s => values (_has_subdirs s));
      ret (if has_makefile then py_bool_list vals else false)
  end.

(** ** [_setup_files] *)

Definition _setup_files : M unit :=
  do skip <- getitem _skip_subdirs "swig";
  when (negb skip)
    (do main <- _get_mainswigfile;
     do main <- as_str (of_option main);
     setitem_file "swig" (os_path_join "swig" [main]));;
  setitem_info "pydir" (VStr "python");;
  do v <- getitem _info "modname";
  do modname <- as_str v;
  do has_pydir <- os_path_isdir (os_path_join "python" [modname]);
  when has_pydir
    (do v <- getitem _info "modname";
     do modname <- as_str v;
     setitem_info "pydir" (VStr (os_path_join "python" [modname])));;
  do v <- getitem _info "modname";
  setitem_file "qalib" (os_path_join "lib" ["qa_" +:+ py_str v +:+ ".cc"]);;
  do v <- getitem _info "pydir";
  do pydir <- as_str v;
  setitem_file "pyinit" (os_path_join pydir ["__init__.py"]);;
  setitem_file "cmlib" (os_path_join "lib" ["CMakeLists.txt"]);;
  setitem_file "cmgrc" (os_path_join "grc" ["CMakeLists.txt"]);;
  do v <- getitem _info "pydir";
  do pydir <- as_str v;
  setitem_file "cmpython" (os_path_join pydir ["CMakeLists.txt"]);;
  do is_component <- getitem _info "is_component";
  (if truthy is_component then
     do v <- getitem _info "modname";
     do modname <- as_str v;
     setitem_info "includedir" (VStr (os_path_join "include" ["gnuradio"; modname]))
   else
     do version <- getitem _info "version";
     if bool_decide (version = VStr "37") then
       do v <- getitem _info "modname";
       do modname <- as_str v;
       setitem_info "includedir" (VStr (os_path_join "include" [modname]))
     else
       setitem_info "includedir" (VStr "include"));;
  do v <- getitem _info "includedir";
  do includedir <- as_str v;
  setitem_file "cminclude" (os_path_join includedir ["CMakeLists.txt"]);;
  setitem_file "cmswig" (os_path_join "swig" ["CMakeLists.txt"]);;
  setitem_file "cmfind" (os_path_join "cmake" ["Modules"; "rfnoc_exampleConfig.cmake"]).

(** ** [setup] *)

(** Lines 117-122: the module name, from the command line or from
    [get_modname()]; [None] is refused. *)
Definition setup_modname (args : Args) : M unit :=
  match module_name args with
  | Some n => setitem_info "modname" (VStr n)
  | None =>
      do n <- ask get_modname;
      setitem_info "modname" (of_option n)
  end;;
  do v <- getitem _info "modname";
  when (bool_decide (v = VNone))
    (raise (ModToolException "No RFNoC module found in the given directory.")).

(** Lines 124-127: a '36' layout with a per-module include directory is
    a '37' layout. *)
Definition setup_version : M unit :=
  do version <- getitem _info "version";
  do upgrade <-
    (if bool_decide (version = VStr "36") then
       do v <- getitem _info "modname";
       do modname <- as_str v;
       do plain <- os_path_isdir (os_path_join "include" [modname]);
       or_else plain
         (do v <- getitem _info "modname";
          do modname <- as_str v;
          os_path_isdir (os_path_join "include" ["gnuradio"; modname]))
     else ret false);
  when upgrade (setitem_info "version" (VStr "37")).

(** Lines 128-139: which stages are skipped. *)
Definition setup_skip_subdirs (args : Args) : M unit :=
  skip_if (or_else (skip_lib args) (not_has_subdir "lib")) "lib";;
  skip_if (or_else (skip_python args) (not_has_subdir "python")) "python";;
  skip_if (or_else (skip_swig args)
             (do main <- _get_mainswigfile;
              or_else (bool_decide (main = None)) (not_has_subdir "swig"))) "swig";;
  skip_if (or_else (skip_grc args) (not_has_subdir "grc")) "grc";;
  skip_if (or_else (skip_grc args) (not_has_subdir "examples")) "examples";;
  skip_if (or_else (skip_grc args) (not_has_subdir "grc")) "rfnoc".

(** [setup], up to and including the assignment of [self._info['yes']].
    The messages printed on the way and the source-control manager set
    up afterwards ([_setup_scm]) do not touch the attributes modelled
    here. *)
Definition setup (args : Args) : M unit :=
  modify (with_dir (Some (directory args)));;
  do d <- attr _dir;
  do d <- as_str (of_option d);
  do p <- os_path_abspath d;
  setitem_info "modpath" (VStr p);;
  do d <- attr _dir;
  do d <- as_str (of_option d);
  do ok <- _check_directory d;
  when (negb ok)
    (raise (ModToolException "No RFNoC module found in the given directory."));;
  setup_modname args;;
  setup_version;;
  setup_skip_subdirs args;;
  setitem_info "blockname" (of_option (block_name args));;
  _setup_files;;
  setitem_info "yes" (VBool (yes args)).

(** ** What the methods compute, in closed form *)

(** The first of the two candidates of [_get_mainswigfile] that is a
    regular file. *)
Definition main_swig_candidate (os : OS) (wd d n : string) : option string :=
  if isfile os wd (os_path_join d ["swig"; n +:+ ".i"]) then Some (n +:+ ".i")
  else if isfile os wd (os_path_join d ["swig"; n +:+ "_swig.i"]) then Some (n +:+ "_swig.i")
  else None.

(** The second half of the condition on lines 124-126 of [setup]. *)
Definition per_module_include (os : OS) (wd n : string) : bool :=
  isdir os wd (os_path_join "include" [n]) ||
  isdir os wd (os_path_join "include" ["gnuradio"; n]).

(** What a normal return of [_setup_files] leaves behind, assignment by
    assignment: the Python directory, the include directory, and the
    file set on top of the one found on entry.  [main] is the main
    interface file when the swig stage is not skipped. *)
Definition pydir_of (os : OS) (wd n : string) : string :=
  if isdir os wd (os_path_join "python" [n]) then os_path_join "python" [n] else "python".

Definition includedir_of (c : pyval) (v : option pyval) (n : string) : string :=
  if truthy c then os_path_join "include" ["gnuradio"; n]
  else if bool_decide (v = Some (VStr "37")) then os_path_join "include" [n]
  else "include".

Definition resolved_files (main : option string) (pydir includedir n : string)
    (f : gmap string string) : gmap string string :=
  <["cmfind" := os_path_join "cmake" ["Modules"; "rfnoc_exampleConfig.cmake"]]>
  (<["cmswig" := os_path_join "swig" ["CMakeLists.txt"]]>
  (<["cminclude" := os_path_join includedir ["CMakeLists.txt"]]>
  (<["cmpython" := os_path_join pydir ["CMakeLists.txt"]]>
  (<["cmgrc" := os_path_join "grc" ["CMakeLists.txt"]]>
  (<["cmlib" := os_path_join "lib" ["CMakeLists.txt"]]>
  (<["pyinit" := os_path_join pydir ["__init__.py"]]>
  (<["qalib" := os_path_join "lib" ["qa_" +:+ n +:+ ".cc"]]>
  (match main with
   | Some m => <["swig" := os_path_join "swig" [m]]> f
   | None => f
   end)))))))).

Definition resolved (os : OS) (s : ModTool) (n : string) (c : pyval)
    (main : option string) : ModTool :=
  let pydir := pydir_of os (cwd s) n in
  let includedir := includedir_of c (_info s !! "version") n in
  mkModTool (_has_subdirs s) (_skip_subdirs s)
    (<["includedir" := VStr includedir]> (<["pydir" := VStr pydir]> (_info s)))
    (resolved_files main pydir includedir n (_file s))
    (_dir s) (cwd s).

(** What [_setup_files] needs in order to return: a module name that is
    a string, the component flag, a version unless the module is a
    component, and the swig decision, with a main interface file when
    the stage is not skipped. *)
Definition ready (os : OS) (s : ModTool) (n : string) (c : pyval)
    (main : option string) : Prop :=
  _info s !! "modname" = Some (VStr n) /\
  _info s !! "is_component" = Some c /\
  (truthy c = false -> is_Some (_info s !! "version")) /\
  match main with
  | None => _skip_subdirs s !! "swig" = Some true
  | Some m => _skip_subdirs s !! "swig" = Some false /\
              _get_mainswigfile os s = Return (Some m) s
  end.

(** How a run ended: [None] for a normal return, the exception
    otherwise. *)
Definition raised {A} (o : outcome A) : option pyexn :=
  match o with
  | Return _ _ => None
  | Raise e _ => Some e
  end.

(** A method that leaves the object as it found it, however it ends. *)
Definition readonly {A} (c : M A) : Prop := forall os s, final (c os s) = s.

(** Two objects that differ at most in their skip map. *)
Definition only_skips_changed (s s' : ModTool) : Prop :=
  _has_subdirs s' = _has_subdirs s /\ _info s' = _info s /\ _file s' = _file s /\
  _dir s' = _dir s /\ cwd s' = cwd s.

(** What the loop of [_check_directory] keeps true while it scans the
    listing from the working directory [wd]: the component flag is still
    off and [sub] is a key of the presence map. *)
Definition scanning (wd sub : string) (s : ModTool) : Prop :=
  cwd s = wd /\
  _info s !! "is_component" = Some (VBool false) /\
  is_Some (_has_subdirs s !! sub).

(** ** Example module directories *)

Definition mem (x : string) (l : list string) : bool := existsb (String.eqb x) l.

(** A module root in which the process already stands, so that the
    directory given on the command line is ["."] and [chdir] stays where
    it is: [entries] is the listing of the root, [files] are the regular
    files with their text and [dirs] the directories, both named by the
    relative paths the methods build. *)
Definition module_root (entries : list string) (files : list (string * string))
    (dirs : list string) (name : option string) : OS :=
  mkOS (fun _ _ => Some entries)
       (fun wd _ => Some wd)
       (fun wd p => Some (os_path_join wd [p]))
       (fun _ p => mem p (map fst files))
       (fun _ p => mem p dirs)
       (fun _ p => snd <$> List.find (fun e => String.eqb (fst e) p) files)
       (fun _ => name).

(** Only a top-level [CMakeLists.txt] that finds GNU Radio: none of the
    known subdirectories exists. *)
Definition bare_root : OS :=
  module_root ["CMakeLists.txt"]
    [("CMakeLists.txt", "find_package(Gnuradio REQUIRED)")] [] (Some "foo").

(** A complete out-of-tree module [foo] with the newer include layout,
    whose main interface file is [swig/foo_swig.i], and one directory
    ([docs]) the tool does not know. *)
Definition full_root : OS :=
  module_root
    ["CMakeLists.txt"; "lib"; "include"; "python"; "swig"; "grc"; "examples"; "rfnoc"; "docs"]
    [("CMakeLists.txt", "find_package(Gnuradio REQUIRED)"); ("./swig/foo_swig.i", "%include")]
    ["lib"; "include"; "python"; "swig"; "grc"; "examples"; "rfnoc"; "docs"; "include/foo"]
    (Some "foo").

(** An in-tree component [bar]: its [CMakeLists.txt] registers a
    component and does not look for GNU Radio. *)
Definition component_root : OS :=
  module_root ["CMakeLists.txt"; "lib"; "include"; "python"]
    [("CMakeLists.txt", "GR_REGISTER_COMPONENT(gr-bar ENABLE_GR_BAR)")]
    ["lib"; "include"; "python"; "include/gnuradio/bar"] (Some "bar").

(** A fresh object in the directory the examples are run from. *)
Definition fresh : ModTool := __init__ "/work/foo".

(** The object once [setup] has run in [full_root] without options. *)
Definition full_module : ModTool := final (setup default_args full_root fresh).

(** Module [foo] as [setup] hands it to [_setup_files] when run with
    [--skip-lib] in [full_root]: every stage directory is there, the
    lib stage is skipped on request. *)
Definition all_true (names : list string) : gmap string bool :=
  fold_left (fun m subdir => <[subdir := true]> m) names ∅.

Definition skipped_lib_module : ModTool :=
  mkModTool (all_true _subdirs)
    (<["lib" := true]> (all_false _subdirs))
    (<["blockname" := VNone]> (<["version" := VStr "37"]> (<["modname" := VStr "foo"]>
       (<["is_component" := VBool false]> (<["modpath" := VStr "/work/foo"]> ∅)))))
    ∅ (Some ".") "/work/foo".

(** The component [bar] of [component_root] before its file set is
    resolved, still at version '36' and without a swig stage. *)
Definition component_module : ModTool :=
  mkModTool (<["python" := true]> (<["include" := true]> (<["lib" := true]> (all_false _subdirs))))
    (<["rfnoc" := true]> (<["examples" := true]> (<["grc" := true]> (<["swig" := true]>
       (all_false _subdirs)))))
    (<["blockname" := VNone]> (<["modname" := VStr "bar"]> (<["version" := VStr "36"]>
       (<["is_component" := VBool true]> (<["modpath" := VStr "/work/gr/gr-bar"]> ∅)))))
    ∅ (Some ".") "/work/gr/gr-bar".

(** The invariant of the file set as the data model words it: an entry
    is there only if the stage that owns it is not skipped. *)
Definition populated_only_if_active (s : ModTool) : Prop :=
  (_skip_subdirs s !! "lib" = Some true ->
     _file s !! "qalib" = None /\ _file s !! "cmlib" = None) /\
  (_skip_subdirs s !! "grc" = Some true -> _file s !! "cmgrc" = None) /\
  (_skip_subdirs s !! "python" = Some true ->
     _file s !! "pyinit" = None /\ _file s !! "cmpython" = None) /\
  (_skip_subdirs s !! "swig" = Some true ->
     _file s !! "swig" = None /\ _file s !! "cmswig" = None).

(** The command lines of the examples. *)
Definition args_skip_lib : Args :=
  mkArgs "." None None true false false false false false scm_no false.
Definition args_skip_rfnoc : Args :=
  mkArgs "." None None false false false false false true scm_no false.
Definition args_skip_examples : Args :=
  mkArgs "." None None false false false false true false scm_no false.
Definition args_skip_grc : Args :=
  mkArgs "." None None false false false true false false scm_no false.

(** ** Relations used to describe the runs *)

(** The seven ways one round of the loop of [_check_directory] can go
    for the entry [f]. *)
Inductive file_effect (os : OS) (f : string) (has_makefile : bool) (s : ModTool) :
    outcome bool -> Prop :=
| fe_package text :
    f = "CMakeLists.txt" -> isfile os (cwd s) f = true ->
    read_text os (cwd s) f = Some text ->
    re_search_literal "find_package(Gnuradio" text = true ->
    file_effect os f has_makefile s
      (Return true (with_info <["version" := VStr "36"]> s))
| fe_component text :
    f = "CMakeLists.txt" -> isfile os (cwd s) f = true ->
    read_text os (cwd s) f = Some text ->
    re_search_literal "find_package(Gnuradio" text = false ->
    re_search_literal "GR_REGISTER_COMPONENT" text = true ->
    file_effect os f has_makefile s
      (Return true (with_info <["is_component" := VBool true]>
                      (with_info <["version" := VStr "36"]> s)))
| fe_no_marker text :
    f = "CMakeLists.txt" -> isfile os (cwd s) f = true ->
    read_text os (cwd s) f = Some text ->
    re_search_literal "find_package(Gnuradio" text = false ->
    re_search_literal "GR_REGISTER_COMPONENT" text = false ->
    file_effect os f has_makefile s (Return has_makefile s)
| fe_unreadable :
    f = "CMakeLists.txt" -> isfile os (cwd s) f = true ->
    read_text os (cwd s) f = None ->
    file_effect os f has_makefile s (Raise IOError s)
| fe_known :
    isfile os (cwd s) f = false \/ f <> "CMakeLists.txt" ->
    isdir os (cwd s) f = true -> is_Some (_has_subdirs s !! f) ->
    file_effect os f has_makefile s
      (Return has_makefile (with_has_subdirs <[f := true]> s))
| fe_unknown :
    isfile os (cwd s) f = false \/ f <> "CMakeLists.txt" ->
    isdir os (cwd s) f = true -> _has_subdirs s !! f = None ->
    file_effect os f has_makefile s
      (Return has_makefile (with_skip_subdirs <[f := true]> s))
| fe_neither :
    isfile os (cwd s) f = false \/ f <> "CMakeLists.txt" ->
    isdir os (cwd s) f = false ->
    file_effect os f has_makefile s (Return has_makefile s).

(** What scanning the listing [files] from the working directory [wd]
    may change between [s] and [s']: the version and the component
    flag; presence entries of keys that were there, set to true for
    names in the listing that are directories; skip entries, set to true
    for listed directories that are no key of the presence map. *)
Definition scanned (os : OS) (wd : string) (files : list string) (s s' : ModTool) : Prop :=
  _file s' = _file s /\ _dir s' = _dir s /\ cwd s' = cwd s /\
  (forall k, k <> "version" -> k <> "is_component" -> _info s' !! k = _info s !! k) /\
  (forall k, is_Some (_has_subdirs s' !! k) <-> is_Some (_has_subdirs s !! k)) /\
  (forall k, _has_subdirs s' !! k <> _has_subdirs s !! k ->
     _has_subdirs s' !! k = Some true /\ k ∈ files /\ isdir os wd k = true) /\
  (forall k, _skip_subdirs s' !! k <> _skip_subdirs s !! k ->
     _skip_subdirs s' !! k = Some true /\ k ∈ files /\ isdir os wd k = true /\
     _has_subdirs s !! k = None).

(** ** More example directories *)

(** A directory that cannot be listed. *)
Definition unreadable_root : OS :=
  mkOS (fun _ _ => None)
       (fun wd _ => Some wd)
       (fun wd p => Some (os_path_join wd [p]))
       (fun _ _ => false) (fun _ _ => false) (fun _ _ => None) (fun _ => None).

(** A working directory that has been removed: nothing can be listed
    or entered, and no relative path can be made absolute. *)
Definition removed_root : OS :=
  mkOS (fun _ _ => None) (fun _ _ => None) (fun _ _ => None)
       (fun _ _ => false) (fun _ _ => false) (fun _ _ => None) (fun _ => None).

(** A file system given by absolute paths, in which a relative path is
    resolved against the working directory: the directories with their
    listings, the regular files with their text, and the module name
    [get_modname] finds in a directory. *)
Definition resolve (wd p : string) : string :=
  if startswith_sep p then p
  else if String.eqb p "." then wd
  else match p with
       | String "." (String "/" rest) => wd +:+ "/" +:+ rest
       | _ => wd +:+ "/" +:+ p
       end.

Definition lookup_path {A} (p : string) (l : list (string * A)) : option A :=
  snd <$> List.find (fun e => String.eqb (fst e) p) l.

Definition tree (dirs : list (string * list string)) (files : list (string * string))
    (names : list (string * string)) : OS :=
  mkOS (fun wd d => lookup_path (resolve wd d) dirs)
       (fun wd d => if mem (resolve wd d) (map fst dirs) then Some (resolve wd d) else None)
       (fun wd p => Some (resolve wd p))
       (fun wd p => mem (resolve wd p) (map fst files))
       (fun wd p => mem (resolve wd p) (map fst dirs))
       (fun wd p => lookup_path (resolve wd p) files)
       (fun wd => lookup_path wd names).

(** Module [foo] in [/work/mod], with a swig directory that holds
    [foo_swig.i]. *)
Definition module_tree : OS :=
  tree [("/work", ["mod"]);
        ("/work/mod", ["CMakeLists.txt"; "lib"; "swig"]);
        ("/work/mod/lib", []);
        ("/work/mod/swig", ["foo_swig.i"])]
       [("/work/mod/CMakeLists.txt", "find_package(Gnuradio REQUIRED)");
        ("/work/mod/swig/foo_swig.i", "%include")]
       [("/work/mod", "foo")].

(** The tool called from [/work] with [-d mod], and with
    [-d /work/mod]. *)
Definition args_relative : Args :=
  mkArgs "mod" None None false false false false false false scm_no false.
Definition args_absolute : Args :=
  mkArgs "/work/mod" None None false false false false false false scm_no false.

(** A source tree that is no module: its [CMakeLists.txt] has neither
    marker. *)
Definition plain_root : OS :=
  module_root ["CMakeLists.txt"; "lib"; "src"]
    [("CMakeLists.txt", "project(plain) find_package(Boost)")]
    ["lib"; "src"] None.

(** The message of the exception raised by [setup]. *)
Definition no_module : string := "No RFNoC module found in the given directory.".

(** The stages [setup] takes a skip decision for. *)
Definition decided_stages : list string :=
  ["lib"; "python"; "swig"; "grc"; "examples"; "rfnoc"].

(** Between [s] and [s'] nothing changed but skip entries of decided
    stages, and those only to true. *)
Definition skips_grown (s s' : ModTool) : Prop :=
  only_skips_changed s s' /\
  forall k, _skip_subdirs s' !! k <> _skip_subdirs s !! k ->
            _skip_subdirs s' !! k = Some true /\ k ∈ decided_stages.

(** ** [get_class_dict] *)

(** A class derived from [ModTool] as [get_class_dict] sees it: its
    [name] attribute, which every such class has since [ModTool] defines
    one, and its [aliases] attribute, a sequence of strings, when it has
    one ([ModTool] itself has none).  [cls] tells the classes apart. *)
Record command_class : Type := mkClass {
  cls : string;
  name : string;
  aliases : option (list string)
}.

#[global] Instance command_class_eq_dec : EqDecision command_class.
Proof. solve_decision. Defined.

(** What the caller passes in: the values of a namespace.  On a class
    derived from [ModTool], [issubclass] is true; on any other class it
    is false; on a value that is no class it raises [TypeError]. *)
Inductive pyglobal : Type :=
| Subclass (c : command_class)
| OtherClass
| NotAClass.

(** The body of the loop.  The class is entered under its name first;
    a missing [aliases] raises [AttributeError] after that, which, like
    the [TypeError] of [issubclass], is caught and passed over. *)
Definition register (classdict : gmap string command_class) (glob : pyglobal) :
    gmap string command_class :=
  match glob with
  | Subclass c =>
      let classdict := <[name c := c]> classdict in
      match aliases c with
      | Some names => fold_left (fun d alias => <[alias := c]> d) names classdict
      | None => classdict
      end
  | OtherClass => classdict
  | NotAClass => classdict
  end.

Definition get_class_dict (the_globals : list pyglobal) : gmap string command_class :=
  fold_left register the_globals ∅.

(** The command names a class answers to: its name and its aliases. *)
Definition command_names (c : command_class) : list string :=
  name c :: default [] (aliases c).

(** The commands of the tool as an example: [ModTool] itself, two
    commands with aliases, and values that are no commands. *)
Definition base_class : command_class := mkClass "ModTool" "base" None.
Definition add_class : command_class := mkClass "ModToolAdd" "add" (Some ["insert"]).
Definition remove_class : command_class :=
  mkClass "ModToolRemove" "remove" (Some ["rm"; "del"]).
Definition tool_globals : list pyglobal :=
  [NotAClass; Subclass base_class; OtherClass; Subclass add_class; NotAClass;
   Subclass remove_class].

(** A command line that names the module. *)
Definition args_named : Args :=
  mkArgs "." (Some "bar") None false false false false false false scm_no false.
(** * Properties *)

(** ** The library functions on examples *)

Example join_two : os_path_join "include" ["gnuradio"; "foo"] = "include/gnuradio/foo".
Proof. reflexivity. Qed.

Example join_dot : os_path_join "." ["swig"; "foo.i"] = "./swig/foo.i".
Proof. reflexivity. Qed.

Example join_absolute : os_path_join "include" ["/foo"] = "/foo".
Proof. reflexivity. Qed.

Example search_marker :
  re_search_literal "find_package(Gnuradio" "  find_package(Gnuradio REQUIRED)" = true.
Proof. reflexivity. Qed.

Example search_no_marker :
  re_search_literal "find_package(Gnuradio" "find_package(Boost)" = false.
Proof. reflexivity. Qed.

(** A relative name is appended behind a separator. *)
Lemma join_include_relative n :
  startswith_sep n = false ->
  os_path_join "include" [n] = "include/" +:+ n /\
  os_path_join "include" ["gnuradio"; n] = "include/gnuradio/" +:+ n.
Proof.
  intros Hn. unfold os_path_join. simpl. unfold join_step. rewrite Hn. done.
Qed.

(** ** The methods on examples *)

Example full_module_version : _info full_module !! "version" = Some (VStr "37").
Proof. vm_compute. reflexivity. Qed.

Example full_module_swig : _file full_module !! "swig" = Some "swig/foo_swig.i".
Proof. vm_compute. reflexivity. Qed.

Example full_module_unknown_dir : _skip_subdirs full_module !! "docs" = Some true.
Proof. vm_compute. reflexivity. Qed.

Example component_includedir :
  _info (final (setup default_args component_root fresh)) !! "includedir"
  = Some (VStr "include/gnuradio/bar").
Proof. vm_compute. reflexivity. Qed.

(** [setup --skip-lib] in [full_root] goes through [skipped_lib_module]:
    the lib stage is skipped and its entries are in the file set. *)
Example skip_lib_run :
  raised (setup args_skip_lib full_root fresh) = None /\
  _skip_subdirs (final (setup args_skip_lib full_root fresh)) !! "lib" = Some true /\
  _file (final (setup args_skip_lib full_root fresh)) !! "qalib" = Some "lib/qa_foo.cc".
Proof. split; [|split]; vm_compute; reflexivity. Qed.

(** [_setup_files] adds to the file set it finds: with swig skipped, an
    entry for the main interface file left by an earlier run stays. *)
Example earlier_swig_entry_stays :
  _file (final (_setup_files component_root
                  (with_file <["swig" := "swig/old.i"]> component_module))) !! "swig"
  = Some "swig/old.i".
Proof. vm_compute. reflexivity. Qed.

(** ** Running the methods symbolically *)

(** Unfolds the plumbing of the monad on a state given by its fields,
    leaving the dictionary lookups and file-system queries on which the
    run depends. *)
Ltac run :=
  cbv beta iota delta
    [bind ret raise when attr modify ask getitem or_else not_has_subdir skip_if
     setitem_info setitem_file setitem_has_subdirs setitem_skip_subdirs
     as_str of_option os_path_isfile os_path_isdir open_read os_path_abspath
     with_has_subdirs with_skip_subdirs with_info with_file with_dir with_cwd
     _has_subdirs _skip_subdirs _info _file _dir cwd];
  simpl.

Ltac run_in H :=
  cbv beta iota delta
    [bind ret raise when attr modify ask getitem or_else not_has_subdir skip_if
     setitem_info setitem_file setitem_has_subdirs setitem_skip_subdirs
     as_str of_option os_path_isfile os_path_isdir open_read os_path_abspath
     with_has_subdirs with_skip_subdirs with_info with_file with_dir with_cwd
     _has_subdirs _skip_subdirs _info _file _dir cwd] in H;
  simpl in H.

(** Lookups after assignments. *)
Ltac lookups :=
  repeat first
    [ rewrite lookup_insert_eq
    | rewrite lookup_insert_ne by (discriminate || congruence) ].

Ltac lookups_in H :=
  repeat first
    [ rewrite lookup_insert_eq in H
    | rewrite lookup_insert_ne in H by (discriminate || congruence) ].

(** Lookups whose result is among the hypotheses. *)
Ltac known :=
  repeat (progress (simpl; lookups;
                    repeat match goal with
                           | H : _ !! _ = Some _ |- _ => rewrite H
                           end)).

(** *** Sequencing *)

Lemma bind_Return {A B} (c : M A) (k : A -> M B) os s b s' :
  bind c k os s = Return b s' ->
  exists a s1, c os s = Return a s1 /\ k a os s1 = Return b s'.
Proof. unfold bind. destruct (c os s) as [a s1|]; [eauto | done]. Qed.

Lemma readonly_Return {A} (c : M A) os s a s' :
  readonly c -> c os s = Return a s' -> s' = s.
Proof. intros Hc H. by rewrite <- (Hc os s), H. Qed.

Lemma readonly_bind {A B} (c : M A) (k : A -> M B) :
  readonly c -> (forall a, readonly (k a)) -> readonly (bind c k).
Proof.
  intros Hc Hk os s. unfold bind. destruct (c os s) as [a s1|e s1] eqn:E.
  - apply readonly_Return in E as ->; [apply Hk | done].
  - by rewrite <- (Hc os s), E.
Qed.

Lemma readonly_ret {A} (a : A) : readonly (ret a).
Proof. done. Qed.

Lemma readonly_or_else a c : readonly c -> readonly (or_else a c).
Proof. destruct a; [intros _; apply readonly_ret | done]. Qed.

Lemma readonly_not_has_subdir k : readonly (not_has_subdir k).
Proof. intros os s. unfold not_has_subdir. run. by destruct (_ !! _). Qed.

(** *** [_get_mainswigfile] *)

Lemma first_swig_file_final os s l : final (first_swig_file l os s) = s.
Proof.
  induction l as [|fname l IH]; [done|].
  destruct s as [has skip info file dir wd].
  simpl. run. destruct dir; [|done].
  destruct (isfile os wd _); [done|]. apply IH.
Qed.

(** The method only reads: whatever it returns or raises, the object is
    as before. *)
Lemma _get_mainswigfile_readonly : readonly _get_mainswigfile.
Proof.
  intros os s. unfold _get_mainswigfile.
  destruct (_info s !! "modname") as [[| |n]|] eqn:Hn;
    destruct s as [has skip info file dir wd]; run; simpl in Hn; rewrite Hn; try done.
  exact (first_swig_file_final os _ [n +:+ ".i"; n +:+ "_swig.i"]).
Qed.

Lemma _get_mainswigfile_Return os s r s' :
  _get_mainswigfile os s = Return r s' -> s' = s.
Proof. apply readonly_Return, _get_mainswigfile_readonly. Qed.

(** The whole behaviour of the method, in terms of the three things it
    reads: the module name, the directory and the files. *)
Lemma _get_mainswigfile_eq os s :
  _get_mainswigfile os s =
    match _info s !! "modname" with
    | None => Raise (KeyError "modname") s
    | Some (VStr n) =>
        match _dir s with
        | Some d => Return (main_swig_candidate os (cwd s) d n) s
        | None => Raise TypeError s
        end
    | Some _ => Raise TypeError s
    end.
Proof.
  destruct s as [has skip info file dir wd].
  unfold _get_mainswigfile, main_swig_candidate. run.
  destruct (info !! "modname") as [[| |n]|]; try done.
  destruct dir as [d|]; run; [|done].
  destruct (isfile os wd _); [done|]. run.
  destruct (isfile os wd _); done.
Qed.

Lemma _get_mainswigfile_run os s n d :
  _info s !! "modname" = Some (VStr n) ->
  _dir s = Some d ->
  _get_mainswigfile os s = Return (main_swig_candidate os (cwd s) d n) s.
Proof. intros Hn Hd. by rewrite _get_mainswigfile_eq, Hn, Hd. Qed.

(** The answer depends on the object only through the module name, the
    directory and the working directory. *)
Lemma _get_mainswigfile_agree os s1 s2 r :
  _info s1 !! "modname" = _info s2 !! "modname" ->
  _dir s1 = _dir s2 -> cwd s1 = cwd s2 ->
  _get_mainswigfile os s1 = Return r s1 ->
  _get_mainswigfile os s2 = Return r s2.
Proof.
  intros Hn Hd Hw. rewrite !_get_mainswigfile_eq, <- Hn, <- Hd, <- Hw.
  destruct (_info s1 !! "modname") as [[| |n]|]; try done.
  destruct (_dir s1); [|done]. congruence.
Qed.

(** What [_get_mainswigfile] computes.  It looks at [<name>.i] and then
    at [<name>_swig.i], both at the path
    [os.path.join(self._dir, 'swig', ...)] taken from the working
    directory of the process: it returns the first one that is a regular
    file there and [None] when neither is; no other file decides the
    answer. *)
Theorem mainswigfile_two_candidates os s n d :
  _info s !! "modname" = Some (VStr n) ->
  _dir s = Some d ->
  let first := os_path_join d ["swig"; n +:+ ".i"] in
  let second := os_path_join d ["swig"; n +:+ "_swig.i"] in
  (isfile os (cwd s) first = true ->
     _get_mainswigfile os s = Return (Some (n +:+ ".i")) s) /\
  (isfile os (cwd s) first = false -> isfile os (cwd s) second = true ->
     _get_mainswigfile os s = Return (Some (n +:+ "_swig.i")) s) /\
  (isfile os (cwd s) first = false -> isfile os (cwd s) second = false ->
     _get_mainswigfile os s = Return None s) /\
  (forall os',
     isfile os' (cwd s) first = isfile os (cwd s) first ->
     isfile os' (cwd s) second = isfile os (cwd s) second ->
     _get_mainswigfile os' s = _get_mainswigfile os s).
Proof.
  intros Hn Hd first second.
  repeat split.
  - intros H1. rewrite (_get_mainswigfile_run os s n d) by done.
    unfold main_swig_candidate. fold first. by rewrite H1.
  - intros H1 H2. rewrite (_get_mainswigfile_run os s n d) by done.
    unfold main_swig_candidate. fold first second. by rewrite H1, H2.
  - intros H1 H2. rewrite (_get_mainswigfile_run os s n d) by done.
    unfold main_swig_candidate. fold first second. by rewrite H1, H2.
  - intros os' H1 H2.
    rewrite (_get_mainswigfile_run os s n d), (_get_mainswigfile_run os' s n d) by done.
    unfold main_swig_candidate. fold first second. by rewrite H1, H2.
Qed.

(** Module [foo] in [full_root], where only [swig/foo_swig.i] exists. *)
Lemma mainswigfile_two_candidates_witness :
  _get_mainswigfile full_root full_module = Return (Some "foo_swig.i") full_module.
Proof.
  assert (Hn : _info full_module !! "modname" = Some (VStr "foo")) by (vm_compute; reflexivity).
  assert (Hd : _dir full_module = Some ".") by (vm_compute; reflexivity).
  destruct (mainswigfile_two_candidates full_root full_module "foo" "." Hn Hd)
    as (_ & Hsecond & _).
  apply Hsecond; vm_compute; reflexivity.
Defined.

(** C4, on the code.  The tool is called from [/work] with [-d mod] on
    the module [foo] of [/work/mod], whose swig directory holds
    [foo_swig.i] and no [foo.i].  [setup] has changed into [/work/mod]
    when [_get_mainswigfile] joins [self._dir] once more and looks for
    [mod/swig/foo.i] and [mod/swig/foo_swig.i] from there: it finds
    neither and answers [None], although [swig/foo_swig.i], the path
    line 149 would use, is a regular file; the swig stage is skipped
    with its flag off and its directory present, and the file set gets no
    main interface file.  Called with [-d /work/mod] on the same tree
    the method answers [foo_swig.i]. *)
Theorem mainswigfile_misses_relative_directory :
  (skip_swig args_relative = false /\
   raised (setup args_relative module_tree (__init__ "/work")) = None /\
   cwd (final (setup args_relative module_tree (__init__ "/work"))) = "/work/mod" /\
   isfile module_tree "/work/mod" (os_path_join "swig" ["foo.i"]) = false /\
   isfile module_tree "/work/mod" (os_path_join "swig" ["foo_swig.i"]) = true /\
   _get_mainswigfile module_tree (final (setup args_relative module_tree (__init__ "/work")))
   = Return None (final (setup args_relative module_tree (__init__ "/work"))) /\
   _has_subdirs (final (setup args_relative module_tree (__init__ "/work"))) !! "swig"
   = Some true /\
   _skip_subdirs (final (setup args_relative module_tree (__init__ "/work"))) !! "swig"
   = Some true /\
   _file (final (setup args_relative module_tree (__init__ "/work"))) !! "swig" = None) /\
  (_get_mainswigfile module_tree (final (setup args_absolute module_tree (__init__ "/work")))
   = Return (Some "foo_swig.i") (final (setup args_absolute module_tree (__init__ "/work"))) /\
   _file (final (setup args_absolute module_tree (__init__ "/work"))) !! "swig"
   = Some "swig/foo_swig.i").
Proof.
  split.
  - split; [reflexivity|].
    split; [vm_compute; reflexivity|]. split; [vm_compute; reflexivity|].
    split; [vm_compute; reflexivity|]. split; [vm_compute; reflexivity|].
    split; [vm_compute; reflexivity|]. split; [vm_compute; reflexivity|].
    split; vm_compute; reflexivity.
  - split; vm_compute; reflexivity.
Qed.

(** *** The version upgrade of [setup] *)

Lemma setup_version_run os s n v :
  _info s !! "modname" = Some (VStr n) ->
  _info s !! "version" = Some v ->
  setup_version os s =
    Return tt (if bool_decide (v = VStr "36") && per_module_include os (cwd s) n
               then with_info <["version" := VStr "37"]> s else s).
Proof.
  destruct s as [has skip info file dir wd]. simpl.
  intros Hn Hv. unfold setup_version, per_module_include. run. rewrite Hv.
  case_bool_decide; simpl; [|done].
  rewrite Hn. run.
  destruct (isdir os wd (os_path_join "include" [n])); simpl; [done|].
  rewrite Hn.
  destruct (isdir os wd _); done.
Qed.

(** C5.  With version '36' and one of [include/<name>] and
    [include/gnuradio/<name>] a directory, the check of [setup] sets the
    version to '37'; when neither is a directory, or the version is not
    '36', the object is left as it is. *)
Theorem version_upgrade os s n v :
  _info s !! "modname" = Some (VStr n) ->
  _info s !! "version" = Some v ->
  (v = VStr "36" ->
   isdir os (cwd s) (os_path_join "include" [n]) = true \/
   isdir os (cwd s) (os_path_join "include" ["gnuradio"; n]) = true ->
   exists s', setup_version os s = Return tt s' /\
              _info s' !! "version" = Some (VStr "37")) /\
  (v <> VStr "36" \/
   (isdir os (cwd s) (os_path_join "include" [n]) = false /\
    isdir os (cwd s) (os_path_join "include" ["gnuradio"; n]) = false) ->
   setup_version os s = Return tt s).
Proof.
  intros Hn Hv. rewrite (setup_version_run os s n v) by done.
  unfold per_module_include. split.
  - intros -> Hdir. rewrite bool_decide_eq_true_2 by done.
    assert (isdir os (cwd s) (os_path_join "include" [n])
            || isdir os (cwd s) (os_path_join "include" ["gnuradio"; n]) = true) as ->
      by (destruct Hdir as [-> | ->]; [done | apply orb_true_r]).
    simpl. eexists. split; [done|]. simpl. by rewrite lookup_insert_eq.
  - intros [Hv36 | [-> ->]].
    + by rewrite bool_decide_eq_false_2.
    + by rewrite andb_false_r.
Qed.

(** The '36' module [foo] of [full_root], where [include/foo] exists. *)
Lemma version_upgrade_witness :
  exists s', setup_version full_root
               (with_info <["version" := VStr "36"]> full_module) = Return tt s' /\
             _info s' !! "version" = Some (VStr "37").
Proof.
  apply (version_upgrade full_root (with_info <["version" := VStr "36"]> full_module)
           "foo" (VStr "36")).
  - vm_compute; reflexivity.
  - vm_compute; reflexivity.
  - reflexivity.
  - left. vm_compute; reflexivity.
Defined.

(** However the check ends, the object is the one it started with or
    that object with ['version'] set to '37'. *)
Lemma setup_version_final os s :
  final (setup_version os s) = s \/
  final (setup_version os s) = with_info <["version" := VStr "37"]> s.
Proof.
  destruct s as [has skip info file dir wd].
  unfold setup_version. run.
  destruct (info !! "version") as [v|]; [|by left].
  case_bool_decide; simpl; [|by left].
  destruct (info !! "modname") as [[| |n]|] eqn:Hn; try by left.
  destruct (isdir os wd (os_path_join "include" [n])); run; [by right|].
  rewrite Hn. run.
  destruct (isdir os wd _); run; [by right | by left].
Qed.

(** C10.  Whatever the check of lines 124-127 does, also when it
    raises, it leaves the presence map, the skip map, the file set, the
    directory and every entry of [_info] other than ['version'] (so
    ['modname'], ['modpath'] and ['is_component']) as they were. *)
Theorem version_upgrade_frame os s :
  let s' := final (setup_version os s) in
  _has_subdirs s' = _has_subdirs s /\
  _skip_subdirs s' = _skip_subdirs s /\
  _file s' = _file s /\
  _dir s' = _dir s /\
  cwd s' = cwd s /\
  (forall k, k <> "version" -> _info s' !! k = _info s !! k) /\
  _info s' !! "modname" = _info s !! "modname" /\
  _info s' !! "modpath" = _info s !! "modpath" /\
  _info s' !! "is_component" = _info s !! "is_component".
Proof.
  cbv zeta.
  destruct (setup_version_final os s) as [-> | ->]; [by repeat split|].
  simpl. repeat split; try done.
  - intros k Hk. by rewrite lookup_insert_ne.
  - by rewrite lookup_insert_ne.
  - by rewrite lookup_insert_ne.
  - by rewrite lookup_insert_ne.
Qed.

(** *** [_setup_files] *)

(** Case analysis on what the run in [H] looks at next. *)
Ltac stuck_in H :=
  match type of H with
  | context [match ?x with _ => _ end] =>
      lazymatch x with
      | context [match _ with _ => _ end] => fail
      | _get_mainswigfile ?os ?s =>
          let E := fresh "Hmain" in
          destruct x eqn:E;
          [apply _get_mainswigfile_Return in E as ?; subst|]
      | _ => destruct x eqn:?
      end
  end.

Ltac invert_run H :=
  repeat (run_in H; lookups_in H; try discriminate H; try stuck_in H).

(** With what it needs at hand, [_setup_files] returns, and the object
    is the one described by [resolved]. *)
Lemma _setup_files_run os s n c main :
  ready os s n c main ->
  _setup_files os s = Return tt (resolved os s n c main).
Proof.
  destruct s as [has skip info file dir wd].
  intros (Hn & Hc & Hv & Hmain). simpl in *.
  unfold _setup_files, resolved, resolved_files, pydir_of, includedir_of.
  run.
  assert (Hswig : skip !! "swig" = Some (bool_decide (main = None))).
  { destruct main as [m|]; [by destruct Hmain as [-> _]|done]. }
  assert (Hm : forall m, main = Some m ->
    _get_mainswigfile os (mkModTool has skip info file dir wd)
    = Return (Some m) (mkModTool has skip info file dir wd)).
  { intros m ->. by destruct Hmain. }
  clear Hmain.
  assert (Hver : truthy c = false -> exists v, info !! "version" = Some v
            /\ bool_decide (info !! "version" = Some (VStr "37")) = bool_decide (v = VStr "37")).
  { intros Hf. destruct (Hv Hf) as [v Hver]. exists v. split; [done|].
    rewrite Hver. apply bool_decide_ext. naive_solver. }
  clear Hv.
  destruct (truthy c) eqn:Hc'; [clear Hver | destruct (Hver eq_refl) as (v & Hv & ->)];
  rewrite Hswig; clear Hswig;
  (destruct main as [m|]; simpl; [rewrite (Hm m eq_refl)|]; clear Hm);
    known;
    (destruct (isdir os wd _) eqn:Hpy; known);
    rewrite ?Hc'; known;
    try destruct (bool_decide (v = VStr "37")); known;
    rewrite ?(insert_insert_eq info "pydir"); reflexivity.
Qed.

(** Conversely it only returns when it had what it needs. *)
Lemma _setup_files_inv os s s' :
  _setup_files os s = Return tt s' ->
  exists n c main, ready os s n c main.
Proof.
  destruct s as [has skip info file dir wd].
  unfold _setup_files. intros H.
  assert (exists n c sk,
    info !! "modname" = Some (VStr n) /\ info !! "is_component" = Some c /\
    (truthy c = false -> is_Some (info !! "version")) /\
    skip !! "swig" = Some sk /\
    (sk = false -> exists m, _get_mainswigfile os (mkModTool has skip info file dir wd)
                             = Return (Some m) (mkModTool has skip info file dir wd)))
    as (n & c & sk & Hn & Hc & Hv & Hsk & Hm).
  { invert_run H.
    all: do 3 eexists; repeat split; try done;
      first [ by (intros; congruence) | by (intros; eauto)
            | by (intros; subst; simpl in *; congruence) ]. }
  destruct sk.
  - exists n, c, None. done.
  - destruct (Hm eq_refl) as [m Hmain]. exists n, c, (Some m). done.
Qed.

Lemma _setup_files_Return os s s' :
  _setup_files os s = Return tt s' ->
  exists n c main, ready os s n c main /\ s' = resolved os s n c main.
Proof.
  intros H. destruct (_setup_files_inv os s s' H) as (n & c & main & Hr).
  exists n, c, main. split; [done|].
  rewrite (_setup_files_run os s n c main Hr) in H. congruence.
Qed.

Lemma resolved_files_lookup main pydir includedir n f k :
  k ∈ ["qalib"; "pyinit"; "cmlib"; "cmgrc"; "cmpython"; "cminclude"; "cmswig"; "cmfind"] ->
  is_Some (resolved_files main pydir includedir n f !! k).
Proof.
  intros Hk. unfold resolved_files.
  repeat (apply elem_of_cons in Hk as [-> | Hk]; [lookups; by eexists|]).
  by apply elem_of_nil in Hk.
Qed.

Lemma resolved_files_swig main pydir includedir n f :
  resolved_files main pydir includedir n f !! "swig" =
    match main with
    | Some m => Some (os_path_join "swig" [m])
    | None => f !! "swig"
    end.
Proof. unfold resolved_files. lookups. destruct main; [by lookups | done]. Qed.

(** C6.  When [_setup_files] returns, ['includedir'] is
    [os.path.join('include', 'gnuradio', name)] for a component,
    whatever the version; otherwise [os.path.join('include', name)] for
    version '37'; otherwise plain ['include']. *)
Theorem includedir_by_layout os s s' n c :
  _info s !! "modname" = Some (VStr n) ->
  _info s !! "is_component" = Some c ->
  _setup_files os s = Return tt s' ->
  (truthy c = true ->
     _info s' !! "includedir" = Some (VStr (os_path_join "include" ["gnuradio"; n]))) /\
  (truthy c = false -> _info s !! "version" = Some (VStr "37") ->
     _info s' !! "includedir" = Some (VStr (os_path_join "include" [n]))) /\
  (truthy c = false -> _info s !! "version" <> Some (VStr "37") ->
     _info s' !! "includedir" = Some (VStr "include")).
Proof.
  intros Hn Hc H.
  destruct (_setup_files_Return os s s' H) as (n' & c' & main & (Hn' & Hc' & _) & ->).
  assert (n' = n) as -> by congruence. assert (c' = c) as -> by congruence.
  unfold resolved, includedir_of. simpl. rewrite lookup_insert_eq.
  repeat split.
  - by intros ->.
  - intros -> Hv. by rewrite bool_decide_eq_true_2.
  - intros -> Hv. by rewrite bool_decide_eq_false_2.
Qed.

(** The component [bar], whose version is '36'. *)
Lemma includedir_by_layout_witness :
  _info component_module !! "version" = Some (VStr "36") /\
  _info (final (_setup_files component_root component_module)) !! "includedir"
  = Some (VStr "include/gnuradio/bar").
Proof.
  split; [vm_compute; reflexivity|].
  assert (Hrun : _setup_files component_root component_module
                 = Return tt (final (_setup_files component_root component_module)))
    by (vm_compute; reflexivity).
  refine (proj1 (includedir_by_layout component_root component_module _ "bar" (VBool true)
                   _ _ Hrun) _).
  - vm_compute; reflexivity.
  - vm_compute; reflexivity.
  - reflexivity.
Defined.

(** C2, as the code has it.  On every normal return of [_setup_files]
    the entries of the lib, grc, python and include stages, the swig
    [CMakeLists.txt] and the CMake find module are populated whatever
    the skip map says; only the main interface file follows its stage:
    it is assigned when swig is not skipped and left as it was found
    when swig is skipped, hence absent in a file set that started
    without it. *)
Theorem fileset_population os s s' :
  _setup_files os s = Return tt s' ->
  _skip_subdirs s' = _skip_subdirs s /\
  (forall k, k ∈ ["qalib"; "pyinit"; "cmlib"; "cmgrc"; "cmpython";
                  "cminclude"; "cmswig"; "cmfind"] ->
             is_Some (_file s' !! k)) /\
  (_skip_subdirs s !! "swig" = Some false -> is_Some (_file s' !! "swig")) /\
  (_skip_subdirs s !! "swig" = Some true -> _file s' !! "swig" = _file s !! "swig") /\
  (_file s !! "swig" = None ->
     (is_Some (_file s' !! "swig") <-> _skip_subdirs s !! "swig" = Some false)).
Proof.
  intros H.
  destruct (_setup_files_Return os s s' H) as (n & c & main & (_ & _ & _ & Hmain) & ->).
  unfold resolved. simpl. split; [done|]. split.
  { intros k Hk. by apply resolved_files_lookup. }
  rewrite resolved_files_swig.
  destruct main as [m|].
  - destruct Hmain as [Hsk _]. rewrite Hsk. repeat split; try done.
  - rewrite Hmain. repeat split; try done.
    intros Hs. destruct Hs as [x Hx]. congruence.
Qed.

(** Module [foo] with the lib stage skipped. *)
Lemma fileset_population_witness :
  is_Some (_file (final (_setup_files full_root skipped_lib_module)) !! "qalib") /\
  is_Some (_file (final (_setup_files full_root skipped_lib_module)) !! "swig").
Proof.
  assert (Hrun : _setup_files full_root skipped_lib_module
                 = Return tt (final (_setup_files full_root skipped_lib_module)))
    by (vm_compute; reflexivity).
  destruct (fileset_population full_root skipped_lib_module _ Hrun)
    as (_ & Hall & Hswig & _).
  split.
  - apply Hall. apply elem_of_cons. by left.
  - apply Hswig. vm_compute; reflexivity.
Defined.

(** C2, as stated, fails: with the lib stage skipped, [_setup_files]
    still fills in the qa source and the [CMakeLists.txt] of lib. *)
Lemma fileset_ignores_skipped_lib :
  exists s',
    _setup_files full_root skipped_lib_module = Return tt s' /\
    _skip_subdirs s' !! "lib" = Some true /\
    _file s' !! "qalib" = Some "lib/qa_foo.cc" /\
    _file s' !! "cmlib" = Some "lib/CMakeLists.txt" /\
    ~ populated_only_if_active s'.
Proof.
  pose (s' := final (_setup_files full_root skipped_lib_module)).
  assert (Hrun : _setup_files full_root skipped_lib_module = Return tt s')
    by (vm_compute; reflexivity).
  assert (Hsk : _skip_subdirs s' !! "lib" = Some true) by (vm_compute; reflexivity).
  assert (Hqa : _file s' !! "qalib" = Some "lib/qa_foo.cc") by (vm_compute; reflexivity).
  assert (Hcm : _file s' !! "cmlib" = Some "lib/CMakeLists.txt") by (vm_compute; reflexivity).
  clearbody s'.
  exists s'. repeat split; try assumption.
  intros (Hlib & _). destruct (Hlib Hsk) as [Hnone _]. congruence.
Qed.



(** *** The skip decisions of [setup] *)

Lemma only_skips_changed_refl s : only_skips_changed s s.
Proof. by repeat split. Qed.

Lemma only_skips_changed_trans s1 s2 s3 :
  only_skips_changed s1 s2 -> only_skips_changed s2 s3 -> only_skips_changed s1 s3.
Proof.
  intros (? & ? & ? & ? & ?) (? & ? & ? & ? & ?). repeat split; congruence.
Qed.

(** One [if cond: self._skip_subdirs[stage] = True] whose condition only
    reads: nothing but the entry of [stage] changes, and it changes to
    true or not at all. *)
Lemma skip_if_Return cond stage os s s' :
  readonly cond ->
  skip_if cond stage os s = Return tt s' ->
  exists c, cond os s = Return c s /\
            s' = if c then with_skip_subdirs <[stage := true]> s else s.
Proof.
  intros Hro H. unfold skip_if in H.
  apply bind_Return in H as (c & s1 & Hc & H).
  pose proof (readonly_Return _ _ _ _ _ Hro Hc) as ->.
  exists c. split; [done|]. destruct c; simpl in H; by inversion H.
Qed.

Lemma skip_if_step cond stage os s s' :
  readonly cond ->
  skip_if cond stage os s = Return tt s' ->
  only_skips_changed s s' /\
  (forall k, k <> stage -> _skip_subdirs s' !! k = _skip_subdirs s !! k) /\
  (_skip_subdirs s' !! stage = Some false -> cond os s = Return false s).
Proof.
  intros Hro H. destruct (skip_if_Return _ _ _ _ _ Hro H) as (c & Hc & ->).
  destruct c.
  - split; [by repeat split|]. split.
    + intros k Hk. simpl. by rewrite lookup_insert_ne.
    + simpl. rewrite lookup_insert_eq. discriminate.
  - split; [apply only_skips_changed_refl|]. done.
Qed.

Lemma readonly_stage_condition a k : readonly (or_else a (not_has_subdir k)).
Proof. apply readonly_or_else, readonly_not_has_subdir. Qed.

Lemma readonly_swig_condition a :
  readonly (or_else a
              (do main <- _get_mainswigfile;
               or_else (bool_decide (main = None)) (not_has_subdir "swig"))).
Proof.
  apply readonly_or_else, readonly_bind; [apply _get_mainswigfile_readonly|].
  intros main. apply readonly_stage_condition.
Qed.

(** The condition of the swig stage is false only with a main interface
    file at hand. *)
Lemma swig_condition_false a os s :
  or_else a
    (do main <- _get_mainswigfile;
     or_else (bool_decide (main = None)) (not_has_subdir "swig")) os s = Return false s ->
  a = false /\ exists m, _get_mainswigfile os s = Return (Some m) s.
Proof.
  destruct a; [discriminate|]. simpl. intros H. split; [done|].
  apply bind_Return in H as (main & s1 & Hm & H).
  pose proof (_get_mainswigfile_Return _ _ _ _ Hm) as ->.
  destruct main as [m|]; [eauto | discriminate H].
Qed.

(** C9.  When the skip decisions of [setup] leave the swig stage
    active, [_get_mainswigfile] returns a file name (not [None]) on the
    object handed to [_setup_files], that is after the block name is
    stored, as long as the file system is the one the decision was taken
    on: the [os.path.join] of the swig entry never gets [None]. *)
Theorem swig_file_resolvable os args s s1 :
  setup_skip_subdirs args os s = Return tt s1 ->
  let s2 := with_info <["blockname" := of_option (block_name args)]> s1 in
  _skip_subdirs s2 !! "swig" = Some false ->
  exists m, _get_mainswigfile os s2 = Return (Some m) s2.
Proof.
  intros H s2 Hswig. unfold setup_skip_subdirs in H.
  apply bind_Return in H as ([] & sa & Hlib & H).
  apply bind_Return in H as ([] & sb & Hpy & H).
  apply bind_Return in H as ([] & sc & Hsw & H).
  apply bind_Return in H as ([] & sd & Hgrc & H).
  apply bind_Return in H as ([] & se & Hex & Hrf).
  apply skip_if_step in Hsw as (Hc & _ & Hfalse); [|apply readonly_swig_condition].
  apply skip_if_step in Hgrc as (Hd & Hd' & _); [|apply readonly_stage_condition].
  apply skip_if_step in Hex as (He & He' & _); [|apply readonly_stage_condition].
  apply skip_if_step in Hrf as (Hf & Hf' & _); [|apply readonly_stage_condition].
  assert (Hsc : _skip_subdirs sc !! "swig" = Some false).
  { rewrite <- Hd', <- He', <- Hf' by discriminate. exact Hswig. }
  destruct (swig_condition_false _ _ _ (Hfalse Hsc)) as (_ & m & Hm).
  exists m.
  destruct (only_skips_changed_trans _ _ _ Hd (only_skips_changed_trans _ _ _ He Hf))
    as (_ & Hinfo & _ & Hdir & Hcwd).
  apply (_get_mainswigfile_agree os sb s2); try done.
  - unfold s2. simpl. rewrite lookup_insert_ne by discriminate.
    destruct Hc as (_ & <- & _). by rewrite Hinfo.
  - unfold s2. simpl. destruct Hc as (_ & _ & _ & <- & _). by rewrite Hdir.
  - unfold s2. simpl. destruct Hc as (_ & _ & _ & _ & <-). by rewrite Hcwd.
Qed.

(** Module [foo] of [full_root], set up without options. *)
Lemma swig_file_resolvable_witness :
  exists m,
    _get_mainswigfile full_root
      (with_info <["blockname" := VNone]>
         (final (setup_skip_subdirs default_args full_root full_module)))
    = Return (Some m)
        (with_info <["blockname" := VNone]>
           (final (setup_skip_subdirs default_args full_root full_module))).
Proof.
  apply (swig_file_resolvable full_root default_args full_module
           (final (setup_skip_subdirs default_args full_root full_module)));
    vm_compute; reflexivity.
Defined.

(** *** [_check_directory] *)

Lemma all_false_lookup sub : sub ∈ _subdirs -> all_false _subdirs !! sub = Some false.
Proof.
  intros Hsub. unfold _subdirs in Hsub.
  repeat (apply elem_of_cons in Hsub as [-> | Hsub]; [vm_compute; reflexivity|]).
  by apply elem_of_nil in Hsub.
Qed.

Lemma subdir_not_cmakelists sub : sub ∈ _subdirs -> sub <> "CMakeLists.txt".
Proof.
  intros Hsub. unfold _subdirs in Hsub.
  repeat (apply elem_of_cons in Hsub as [-> | Hsub]; [discriminate|]).
  by apply elem_of_nil in Hsub.
Qed.

(** [bool(d.values())] is true as soon as the dictionary has a key. *)
Lemma values_nonempty (d : gmap string bool) k :
  is_Some (d !! k) -> py_bool_list (values d) = true.
Proof.
  intros [v Hv]. unfold values.
  apply elem_of_map_to_list in Hv.
  destruct (map_to_list d) as [|x l]; [by apply elem_of_nil in Hv | done].
Qed.

(** The top-level [CMakeLists.txt] with the package-find directive. *)
Lemma check_file_marker os s has_makefile text :
  isfile os (cwd s) "CMakeLists.txt" = true ->
  read_text os (cwd s) "CMakeLists.txt" = Some text ->
  re_search_literal "find_package(Gnuradio" text = true ->
  check_file "CMakeLists.txt" has_makefile os s
  = Return true (with_info <["version" := VStr "36"]> s).
Proof.
  destruct s as [has skip info file dir wd]. simpl.
  intros Hfile Hread Hmark. unfold check_file. run.
  rewrite Hfile. run. rewrite Hread. run. by rewrite Hmark.
Qed.

(** Any other entry: a directory is recorded in the presence map when
    its name is known and in the skip map otherwise; [has_makefile]
    stays as it is. *)
Lemma check_file_other os s f has_makefile :
  f <> "CMakeLists.txt" ->
  check_file f has_makefile os s
  = Return has_makefile
      (if isdir os (cwd s) f then
         if bool_decide (is_Some (_has_subdirs s !! f))
         then with_has_subdirs <[f := true]> s
         else with_skip_subdirs <[f := true]> s
       else s).
Proof.
  destruct s as [has skip info file dir wd]. simpl.
  intros Hf. apply String.eqb_neq in Hf. unfold check_file. run.
  rewrite Hf, andb_false_r.
  destruct (isdir os wd f); [|done].
  by destruct (bool_decide (is_Some (has !! f))).
Qed.

Section PackageFind.
Variables (os : OS) (wd text sub : string).
Hypothesis Hfile : isfile os wd "CMakeLists.txt" = true.
Hypothesis Hread : read_text os wd "CMakeLists.txt" = Some text.
Hypothesis Hmark : re_search_literal "find_package(Gnuradio" text = true.
Hypothesis Hsub : sub <> "CMakeLists.txt".

Lemma check_files_package_find files :
  forall has_makefile s,
    scanning wd sub s ->
    (has_makefile = true -> _info s !! "version" = Some (VStr "36")) ->
    exists found s',
      check_files files has_makefile os s = Return found s' /\
      scanning wd sub s' /\
      (found = true -> _info s' !! "version" = Some (VStr "36")) /\
      (has_makefile = true \/ "CMakeLists.txt" ∈ files -> found = true) /\
      (_has_subdirs s !! sub = Some true \/ (sub ∈ files /\ isdir os wd sub = true) ->
       _has_subdirs s' !! sub = Some true).
Proof.
  induction files as [|f files IH]; intros hm s (Hwd & Hcomp & Hkey) Hver.
  - exists hm, s. simpl.
    split; [done|]. split; [done|]. split; [done|]. split.
    + intros [-> | Hin]; [done | by apply elem_of_nil in Hin].
    + intros [Hs | [Hin _]]; [done | by apply elem_of_nil in Hin].
  - simpl. unfold bind at 1.
    destruct (decide (f = "CMakeLists.txt")) as [-> | Hf].
    + rewrite (check_file_marker os s hm text) by (by rewrite ?Hwd).
      destruct (IH true (with_info <["version" := VStr "36"]> s))
        as (found & s' & Hrun & Hscan & Hv & Hfound & Hhas).
      { repeat split; simpl; try done. by rewrite lookup_insert_ne. }
      { intros _. simpl. by rewrite lookup_insert_eq. }
      exists found, s'.
      split; [exact Hrun|]. split; [exact Hscan|]. split; [exact Hv|]. split.
      * intros _. apply Hfound. by left.
      * intros [Hs | [Hin Hdir]]; apply Hhas; [by left|].
        right. split; [|done].
        apply elem_of_cons in Hin as [Heq | Hin]; [done | done].
    + rewrite (check_file_other os s f hm Hf). rewrite Hwd.
      set (s1 := if isdir os wd f then
                   if bool_decide (is_Some (_has_subdirs s !! f))
                   then with_has_subdirs <[f := true]> s
                   else with_skip_subdirs <[f := true]> s
                 else s).
      assert (Hs1 : cwd s1 = cwd s /\ _info s1 = _info s /\
                    is_Some (_has_subdirs s1 !! sub) /\
                    (_has_subdirs s !! sub = Some true \/ (f = sub /\ isdir os wd sub = true) ->
                     _has_subdirs s1 !! sub = Some true)).
      { unfold s1. destruct (isdir os wd f) eqn:Hdir.
        - case_bool_decide as Hknown; simpl.
          + repeat split; try done.
            * destruct (decide (f = sub)) as [-> | Hne];
                [rewrite lookup_insert_eq; by eexists | by rewrite lookup_insert_ne].
            * intros [Hs | [-> _]]; [|by rewrite lookup_insert_eq].
              destruct (decide (f = sub)) as [-> | Hne];
                [by rewrite lookup_insert_eq | by rewrite lookup_insert_ne].
          + repeat split; try done.
            intros [Hs | [-> _]]; [done | by destruct Hknown].
        - repeat split; try done.
          intros [Hs | [-> Hd]]; [done | congruence]. }
      destruct Hs1 as (Hcwd1 & Hinfo1 & Hkey1 & Hhas1).
      destruct (IH hm s1) as (found & s' & Hrun & Hscan & Hv & Hfound & Hhas).
      { repeat split; [congruence | by rewrite Hinfo1 | done]. }
      { intros Hhm. rewrite Hinfo1. by apply Hver. }
      exists found, s'.
      split; [exact Hrun|]. split; [exact Hscan|]. split; [exact Hv|]. split.
      * intros [Hhm | Hin]; apply Hfound; [by left|].
        apply elem_of_cons in Hin as [Heq | Hin]; [congruence | by right].
      * intros [Hs | [Hin Hdir]]; apply Hhas.
        -- left. apply Hhas1. by left.
        -- apply elem_of_cons in Hin as [Heq | Hin].
           ++ left. apply Hhas1. right. by split.
           ++ right. by split.
Qed.
End PackageFind.

(** C7.  A root that can be listed and entered, with a regular file
    [CMakeLists.txt] whose text has the package-find directive and with
    one of the known subdirectories: [_check_directory] answers [True],
    the version is '36', the module is not a component, and the
    subdirectory is marked present. *)
Theorem check_directory_package_find os s d files wd text sub :
  listdir os (cwd s) d = Some files ->
  chdir os (cwd s) d = Some wd ->
  "CMakeLists.txt" ∈ files ->
  isfile os wd "CMakeLists.txt" = true ->
  read_text os wd "CMakeLists.txt" = Some text ->
  re_search_literal "find_package(Gnuradio" text = true ->
  sub ∈ _subdirs -> sub ∈ files -> isdir os wd sub = true ->
  is_Some (_has_subdirs s !! sub) ->
  exists s',
    _check_directory d os s = Return true s' /\
    _info s' !! "version" = Some (VStr "36") /\
    _info s' !! "is_component" = Some (VBool false) /\
    _has_subdirs s' !! sub = Some true.
Proof.
  intros Hlist Hch Hin Hfile Hread Hmark Hsub Hsubin Hdir Hkey.
  unfold _check_directory, bind at 1, listdir_chdir. rewrite Hlist, Hch.
  unfold bind at 1, setitem_info, modify.
  destruct (check_files_package_find os wd text sub Hfile Hread Hmark
              (subdir_not_cmakelists sub Hsub) files false
              (with_info <["is_component" := VBool false]> (with_cwd wd s)))
    as (found & s' & Hrun & (Hwd & Hcomp & Hkey') & Hv & Hfound & Hhas).
  { repeat split; simpl; [by rewrite lookup_insert_eq | done]. }
  { discriminate. }
  unfold bind at 1. rewrite Hrun.
  rewrite (Hfound (or_intror Hin)) in *.
  exists s'. unfold bind, attr, ret.
  rewrite (values_nonempty _ sub Hkey').
  repeat split; try done; [by apply Hv|].
  apply Hhas. right. by split.
Qed.

(** The module [foo] of [full_root] with its [lib] directory. *)
Lemma check_directory_package_find_witness :
  exists s',
    _check_directory "." full_root fresh = Return true s' /\
    _info s' !! "version" = Some (VStr "36") /\
    _info s' !! "is_component" = Some (VBool false) /\
    _has_subdirs s' !! "lib" = Some true.
Proof.
  apply (check_directory_package_find full_root fresh "."
           ["CMakeLists.txt"; "lib"; "include"; "python"; "swig"; "grc";
            "examples"; "rfnoc"; "docs"]
           "/work/foo" "find_package(Gnuradio REQUIRED)" "lib").
  - reflexivity.
  - reflexivity.
  - apply elem_of_cons. by left.
  - reflexivity.
  - reflexivity.
  - reflexivity.
  - apply elem_of_cons. by left.
  - apply elem_of_cons. right. apply elem_of_cons. by left.
  - reflexivity.
  - exists false. vm_compute; reflexivity.
Defined.

(** C1, on the code.  In [bare_root] the listing holds a
    [CMakeLists.txt] with the package-find directive and nothing else:
    none of the known subdirectories exists, every entry of the
    presence map stays false, and yet [_check_directory] answers [True]
    and [setup] goes through without [ModToolException].  The last line
    of the method takes the truth value of the non-empty list
    [self._has_subdirs.values()], not of its members. *)
Theorem check_directory_accepts_bare_root :
  (exists s', _check_directory "." bare_root fresh = Return true s') /\
  (forall sub, sub ∈ _subdirs ->
     (forall wd, isdir bare_root wd sub = false) /\
     _has_subdirs (final (_check_directory "." bare_root fresh)) !! sub = Some false) /\
  raised (setup default_args bare_root fresh) = None.
Proof.
  split; [|split].
  - eexists. vm_compute. reflexivity.
  - intros sub Hsub. unfold _subdirs in Hsub.
    repeat (apply elem_of_cons in Hsub as [-> | Hsub];
            [split; [intros wd|]; vm_compute; reflexivity|]).
    by apply elem_of_nil in Hsub.
  - vm_compute. reflexivity.
Qed.

(** Whatever the presence map records, the answer of [_check_directory]
    on an object built by [__init__] is the flag of the loop: with keys in
    the map, [bool(self._has_subdirs.values())] is true. *)
Lemma check_directory_result_is_flag (d : gmap string bool) (k : string) (found : bool) :
  is_Some (d !! k) ->
  (if found then py_bool_list (values d) else false) = found.
Proof. intros Hk. destruct found; [by apply (values_nonempty d k) | done]. Qed.

(** *** The stage flags *)

Lemma stage_condition_value a k os s c :
  or_else a (not_has_subdir k) os s = Return c s ->
  (a = true /\ c = true) \/
  (a = false /\ exists h, _has_subdirs s !! k = Some h /\ c = negb h).
Proof.
  destruct s as [has skip info file dir wd].
  destruct a; simpl; intros H.
  - left. by inversion H.
  - right. split; [done|]. unfold not_has_subdir in H. run_in H.
    destruct (has !! k) as [h|]; [|discriminate H].
    exists h. split; [done|]. by inversion H.
Qed.

(** What the code does for rfnoc: the stage is skipped exactly when
    [--skip-grc] was given or the grc directory is missing; neither
    [--skip-rfnoc] nor the rfnoc directory is looked at. *)
Lemma rfnoc_follows_grc os args s s1 :
  setup_skip_subdirs args os s = Return tt s1 ->
  _skip_subdirs s !! "rfnoc" = Some false ->
  (_skip_subdirs s1 !! "rfnoc" = Some true <->
   skip_grc args = true \/ _has_subdirs s !! "grc" = Some false).
Proof.
  intros H Hrf0. unfold setup_skip_subdirs in H.
  apply bind_Return in H as ([] & sa & Hlib & H).
  apply bind_Return in H as ([] & sb & Hpy & H).
  apply bind_Return in H as ([] & sc & Hsw & H).
  apply bind_Return in H as ([] & sd & Hgrc & H).
  apply bind_Return in H as ([] & se & Hex & Hrf).
  apply skip_if_step in Hlib as (Ha & Ha' & _); [|apply readonly_stage_condition].
  apply skip_if_step in Hpy as (Hb & Hb' & _); [|apply readonly_stage_condition].
  apply skip_if_step in Hsw as (Hc & Hc' & _); [|apply readonly_swig_condition].
  apply skip_if_step in Hgrc as (Hd & Hd' & _); [|apply readonly_stage_condition].
  apply skip_if_step in Hex as (He & He' & _); [|apply readonly_stage_condition].
  apply skip_if_Return in Hrf as (c & Hcond & ->); [|apply readonly_stage_condition].
  assert (Hse : _skip_subdirs se !! "rfnoc" = Some false).
  { rewrite He', Hd', Hc', Hb', Ha' by discriminate. exact Hrf0. }
  assert (Hhas : _has_subdirs se = _has_subdirs s).
  { destruct Ha as (Ha1 & _), Hb as (Hb1 & _), Hc as (Hc1 & _), Hd as (Hd1 & _),
      He as (He1 & _). congruence. }
  apply stage_condition_value in Hcond as [[Hflag ->] | (Hflag & h & Hh & ->)];
    rewrite ?Hhas in *.
  - simpl. rewrite lookup_insert_eq. split; [intros _; by left | done].
  - destruct h; simpl.
    + rewrite Hse. split; [discriminate|]. intros [Hg | Hg]; congruence.
    + rewrite lookup_insert_eq. split; [intros _; by right | done].
Qed.

(** C3, on the code.  In the complete module [full_root]:
    [--skip-rfnoc] alone leaves the rfnoc stage active, [--skip-examples]
    alone leaves the examples stage active, and [--skip-grc] alone skips
    both of them although their own flags are off and their directories
    exist.  Lines 136-139 test the grc flag, and for rfnoc also the grc
    directory, in place of the stage's own. *)
Theorem own_flag_ignored_for_examples_and_rfnoc :
  (skip_rfnoc args_skip_rfnoc = true /\
   raised (setup args_skip_rfnoc full_root fresh) = None /\
   _skip_subdirs (final (setup args_skip_rfnoc full_root fresh)) !! "rfnoc" = Some false) /\
  (skip_examples args_skip_examples = true /\
   raised (setup args_skip_examples full_root fresh) = None /\
   _skip_subdirs (final (setup args_skip_examples full_root fresh)) !! "examples"
   = Some false) /\
  (skip_rfnoc args_skip_grc = false /\ skip_examples args_skip_grc = false /\
   _has_subdirs (final (setup args_skip_grc full_root fresh)) !! "rfnoc" = Some true /\
   _has_subdirs (final (setup args_skip_grc full_root fresh)) !! "examples" = Some true /\
   _skip_subdirs (final (setup args_skip_grc full_root fresh)) !! "rfnoc" = Some true /\
   _skip_subdirs (final (setup args_skip_grc full_root fresh)) !! "examples" = Some true).
Proof.
  split; [|split].
  - split; [reflexivity|]. split; vm_compute; reflexivity.
  - split; [reflexivity|]. split; vm_compute; reflexivity.
  - split; [reflexivity|]. split; [reflexivity|].
    split; [vm_compute; reflexivity|]. split; [vm_compute; reflexivity|].
    split; vm_compute; reflexivity.
Qed.

(** ** Further properties of [_check_directory] *)

Lemma bind_final {A B} (c : M A) (k : A -> M B) os s :
  final (bind c k os s) =
    match c os s with
    | Return a s1 => final (k a os s1)
    | Raise _ s1 => s1
    end.
Proof. unfold bind. by destruct (c os s). Qed.

(** Every round of the loop goes one of the seven ways. *)
Lemma check_file_effect os f has_makefile s :
  file_effect os f has_makefile s (check_file f has_makefile os s).
Proof.
  destruct s as [has skip info file dir wd].
  set (s := mkModTool has skip info file dir wd).
  assert (Hdirs : isfile os wd f = false \/ f <> "CMakeLists.txt" ->
    file_effect os f has_makefile s
      (if isdir os wd f then
         if bool_decide (is_Some (has !! f))
         then Return has_makefile (with_has_subdirs <[f := true]> s)
         else Return has_makefile (with_skip_subdirs <[f := true]> s)
       else Return has_makefile s)).
  { intros Hnot. destruct (isdir os wd f) eqn:Hdir; [|by apply fe_neither].
    case_bool_decide as Hk; [by apply fe_known|].
    apply fe_unknown; [done | done |]. by apply eq_None_not_Some. }
  unfold check_file. subst s. run.
  destruct (isfile os wd f) eqn:Hfile; simpl.
  - destruct (String.eqb f "CMakeLists.txt") eqn:Hf.
    + apply String.eqb_eq in Hf. run.
      destruct (read_text os wd f) as [text|] eqn:Hread; run;
        [|by apply fe_unreadable].
      destruct (re_search_literal "find_package(Gnuradio" text) eqn:Hm1; run;
        [exact (fe_package os f has_makefile (mkModTool has skip info file dir wd)
                  text Hf Hfile Hread Hm1)|].
      rewrite Hread. run.
      destruct (re_search_literal "GR_REGISTER_COMPONENT" text) eqn:Hm2; run.
      * exact (fe_component os f has_makefile (mkModTool has skip info file dir wd)
                 text Hf Hfile Hread Hm1 Hm2).
      * exact (fe_no_marker os f has_makefile (mkModTool has skip info file dir wd)
                 text Hf Hfile Hread Hm1 Hm2).
    + apply String.eqb_neq in Hf. run.
      specialize (Hdirs (or_intror Hf)).
      destruct (isdir os wd f); run; [|done].
      by destruct (bool_decide (is_Some (has !! f))).
  - specialize (Hdirs (or_introl eq_refl)).
    destruct (isdir os wd f); run; [|done].
    by destruct (bool_decide (is_Some (has !! f))).
Qed.

Lemma scanned_refl os wd files s : scanned os wd files s s.
Proof. repeat split; try done; intros k Hk; by destruct Hk. Qed.

Lemma scanned_trans os wd files s1 s2 s3 :
  scanned os wd files s1 s2 -> scanned os wd files s2 s3 -> scanned os wd files s1 s3.
Proof.
  intros (Hf1 & Hd1 & Hw1 & Hi1 & Hk1 & Hh1 & Hs1) (Hf2 & Hd2 & Hw2 & Hi2 & Hk2 & Hh2 & Hs2).
  split; [congruence|]. split; [congruence|]. split; [congruence|].
  split; [intros k ? ?; rewrite Hi2, Hi1; done|].
  split; [intros k; rewrite Hk2, Hk1; done|].
  split.
  - intros k Hne.
    destruct (decide (_has_subdirs s3 !! k = _has_subdirs s2 !! k)) as [Heq | Hne2].
    + rewrite Heq in *. by apply Hh1.
    + by apply Hh2.
  - intros k Hne.
    destruct (decide (_skip_subdirs s3 !! k = _skip_subdirs s2 !! k)) as [Heq | Hne2].
    + rewrite Heq in *. by apply Hs1.
    + destruct (Hs2 k Hne2) as (? & ? & ? & Hnone). repeat split; try done.
      apply eq_None_not_Some. rewrite <- Hk1. by apply eq_None_not_Some.
Qed.

Lemma insert_true_keys (m : gmap string bool) (f k : string) :
  is_Some (m !! f) -> (is_Some (<[f := true]> m !! k) <-> is_Some (m !! k)).
Proof.
  intros Hf. destruct (decide (f = k)) as [<- | Hne];
    [by rewrite lookup_insert_eq | by rewrite lookup_insert_ne].
Qed.

Lemma insert_true_changed (m : gmap string bool) (f k : string) :
  <[f := true]> m !! k <> m !! k -> k = f /\ <[f := true]> m !! k = Some true.
Proof.
  destruct (decide (f = k)) as [<- | Hne];
    [by rewrite lookup_insert_eq | by rewrite lookup_insert_ne].
Qed.

Lemma file_effect_scanned os files f has_makefile s o :
  f ∈ files ->
  file_effect os f has_makefile s o ->
  scanned os (cwd s) files s (final o).
Proof.
  intros Hin Heff. destruct s as [has skip info file dir wd].
  destruct Heff as [text Hf Hfile Hread Hm1 | text Hf Hfile Hread Hm1 Hm2
                   | text Hf Hfile Hread Hm1 Hm2 | Hf Hfile Hread
                   | Hnot Hdir Hkey | Hnot Hdir Hkey | Hnot Hdir];
    simpl in *; try apply scanned_refl.
  - split; [done|]. split; [done|]. split; [done|]. split.
    { intros k Hk1 Hk2. simpl. by rewrite lookup_insert_ne. }
    split; [done|]. split; intros k Hk; by destruct Hk.
  - split; [done|]. split; [done|]. split; [done|]. split.
    { intros k Hk1 Hk2. simpl. by rewrite !lookup_insert_ne. }
    split; [done|]. split; intros k Hk; by destruct Hk.
  - split; [done|]. split; [done|]. split; [done|]. split; [done|]. simpl.
    split; [intros k; by apply insert_true_keys|].
    split; [|intros k Hk; by destruct Hk].
    intros k Hk. apply insert_true_changed in Hk as [-> Hk]. done.
  - split; [done|]. split; [done|]. split; [done|]. split; [done|]. simpl.
    split; [done|]. split; [intros k Hk; by destruct Hk|].
    intros k Hk. apply insert_true_changed in Hk as [-> Hk]. done.
Qed.

Lemma check_files_scanned os wd files part :
  forall has_makefile s,
    cwd s = wd -> (forall f, f ∈ part -> f ∈ files) ->
    scanned os wd files s (final (check_files part has_makefile os s)).
Proof.
  induction part as [|f part IH]; intros hm s Hwd Hsub; [apply scanned_refl|].
  simpl. rewrite bind_final.
  pose proof (check_file_effect os f hm s) as Heff.
  assert (Hstep : scanned os wd files s (final (check_file f hm os s))).
  { rewrite <- Hwd. apply (file_effect_scanned os files f hm); [|done].
    apply Hsub. by left. }
  destruct (check_file f hm os s) as [hm1 s1 | e s1]; simpl in Hstep; [|done].
  apply (scanned_trans _ _ _ _ s1); [done|].
  apply IH.
  - destruct Hstep as (_ & _ & Hcwd & _). congruence.
  - intros g Hg. apply Hsub. by right.
Qed.

(** The part of [setup] in front of the call of [_check_directory]. *)
Lemma setup_check_directory os args s :
  setup args os s =
    match abspath os (cwd s) (directory args) with
    | None => Raise OSError (with_dir (Some (directory args)) s)
    | Some p =>
        match _check_directory (directory args) os
                (with_info <["modpath" := VStr p]>
                   (with_dir (Some (directory args)) s)) with
        | Return true s1 =>
            (setup_modname args;;
             setup_version;;
             setup_skip_subdirs args;;
             setitem_info "blockname" (of_option (block_name args));;
             _setup_files;;
             setitem_info "yes" (VBool (yes args))) os s1
        | Return false s1 => Raise (ModToolException no_module) s1
        | Raise e s1 => Raise e s1
        end
    end.
Proof.
  destruct s as [has skip info file dir wd]. unfold setup. run.
  destruct (abspath os wd (directory args)) as [p|]; [|done].
  destruct (_check_directory _ _ _) as [[|] s1 | e s1]; done.
Qed.

(** X1.  A directory that cannot be listed or entered: [_check_directory]
    answers [False] and leaves the object and the working directory as
    they were.  [setup] on it ends in one of two ways.  When
    [os.path.abspath] gives the module path, [setup] raises
    [ModToolException] having stored only the directory and the module
    path; when [os.path.abspath] raises [OSError] (line 114, outside the
    [try] of [_check_directory]), that error leaves [setup] with only
    the directory stored. *)
Theorem unreadable_directory_refused os args s :
  listdir os (cwd s) (directory args) = None \/
  chdir os (cwd s) (directory args) = None ->
  _check_directory (directory args) os s = Return false s /\
  setup args os s =
    match abspath os (cwd s) (directory args) with
    | Some p =>
        Raise (ModToolException no_module)
          (with_info <["modpath" := VStr p]> (with_dir (Some (directory args)) s))
    | None => Raise OSError (with_dir (Some (directory args)) s)
    end.
Proof.
  intros Hbad.
  assert (Hcheck : forall t, cwd t = cwd s ->
            _check_directory (directory args) os t = Return false t).
  { intros t Ht. unfold _check_directory, bind, listdir_chdir. rewrite Ht.
    destruct Hbad as [-> | Hch]; [done|].
    destruct (listdir os (cwd s) (directory args)); [by rewrite Hch | done]. }
  split; [by apply Hcheck|].
  rewrite setup_check_directory.
  destruct (abspath os (cwd s) (directory args)) as [p|]; [|done].
  rewrite Hcheck; done.
Qed.

Lemma unreadable_directory_refused_witness :
  raised (setup default_args unreadable_root fresh) = Some (ModToolException no_module) /\
  raised (setup default_args removed_root fresh) = Some OSError.
Proof.
  split.
  - destruct (unreadable_directory_refused unreadable_root default_args fresh) as [_ Hsetup].
    + left. reflexivity.
    + rewrite Hsetup. reflexivity.
  - destruct (unreadable_directory_refused removed_root default_args fresh) as [_ Hsetup].
    + left. reflexivity.
    + rewrite Hsetup. reflexivity.
Defined.

(** X2.  The scan of [_check_directory], however it ends, leaves the file
    set, the directory and every entry of [_info] other than ['version']
    and ['is_component'] alone, and the process stands in the directory
    it was given. *)
Theorem check_directory_frame os s d files wd :
  listdir os (cwd s) d = Some files ->
  chdir os (cwd s) d = Some wd ->
  let s' := final (_check_directory d os s) in
  _file s' = _file s /\ _dir s' = _dir s /\ cwd s' = wd /\
  (forall k, k <> "version" -> k <> "is_component" -> _info s' !! k = _info s !! k).
Proof.
  intros Hlist Hch. cbv zeta.
  unfold _check_directory. rewrite bind_final. unfold listdir_chdir.
  rewrite Hlist, Hch. rewrite bind_final. unfold setitem_info, modify.
  rewrite bind_final.
  pose proof (check_files_scanned os wd files files false
                (with_info <["is_component" := VBool false]> (with_cwd wd s))
                eq_refl (fun f Hf => Hf)) as Hscan.
  destruct (check_files files false os _) as [found s1 | e s1];
    simpl in Hscan |- *;
    destruct Hscan as (Hfile & Hdir & Hcwd & Hinfo & _);
    (split; [done|]; split; [done|]; split; [done|]);
    intros k Hk1 Hk2; rewrite Hinfo by done; simpl; by rewrite lookup_insert_ne.
Qed.

Lemma check_directory_frame_witness :
  _dir (final (_check_directory "." full_root full_module)) = Some "." /\
  _file (final (_check_directory "." full_root full_module)) = _file full_module.
Proof.
  destruct (check_directory_frame full_root full_module "."
              ["CMakeLists.txt"; "lib"; "include"; "python"; "swig"; "grc";
               "examples"; "rfnoc"; "docs"] "/work/foo" eq_refl)
    as (Hfile & Hdir & _).
  - vm_compute; reflexivity.
  - split; [rewrite Hdir; vm_compute; reflexivity | exact Hfile].
Defined.

(** X3.  The presence and skip maps under the scan: no key is added to
    or removed from the presence map; a presence entry only ever changes
    to [True], and only for a name of the listing that is a directory; a
    skip entry only ever changes to [True], and only for a listed
    directory that is no key of the presence map.  In particular no
    stage is unmarked or unskipped by scanning again. *)
Theorem check_directory_marks os s d files wd :
  listdir os (cwd s) d = Some files ->
  chdir os (cwd s) d = Some wd ->
  let s' := final (_check_directory d os s) in
  (forall k, is_Some (_has_subdirs s' !! k) <-> is_Some (_has_subdirs s !! k)) /\
  (forall k, _has_subdirs s' !! k <> _has_subdirs s !! k ->
     _has_subdirs s' !! k = Some true /\ k ∈ files /\ isdir os wd k = true) /\
  (forall k, _skip_subdirs s' !! k <> _skip_subdirs s !! k ->
     _skip_subdirs s' !! k = Some true /\ k ∈ files /\ isdir os wd k = true /\
     _has_subdirs s !! k = None).
Proof.
  intros Hlist Hch. cbv zeta.
  unfold _check_directory. rewrite bind_final. unfold listdir_chdir.
  rewrite Hlist, Hch. rewrite bind_final. unfold setitem_info, modify.
  rewrite bind_final.
  pose proof (check_files_scanned os wd files files false
                (with_info <["is_component" := VBool false]> (with_cwd wd s))
                eq_refl (fun f Hf => Hf)) as Hscan.
  destruct (check_files files false os _) as [found s1 | e s1];
    simpl in Hscan |- *;
    by destruct Hscan as (_ & _ & _ & _ & Hkeys & Hhas & Hskip).
Qed.

Lemma check_directory_marks_witness :
  _skip_subdirs (final (_check_directory "." full_root fresh)) !! "docs" = Some true /\
  "docs" ∈ ["CMakeLists.txt"; "lib"; "include"; "python"; "swig"; "grc";
            "examples"; "rfnoc"; "docs"].
Proof.
  destruct (check_directory_marks full_root fresh "."
              ["CMakeLists.txt"; "lib"; "include"; "python"; "swig"; "grc";
               "examples"; "rfnoc"; "docs"] "/work/foo" eq_refl eq_refl)
    as (_ & _ & Hskip).
  destruct (Hskip "docs") as (Htrue & Hin & _); [|by split].
  vm_compute. discriminate.
Defined.

(** The loop passes [has_makefile] on as long as no entry carries a
    marker it can read. *)
Lemma check_files_no_marker os wd part :
  ("CMakeLists.txt" ∈ part -> isfile os wd "CMakeLists.txt" = true ->
   exists text, read_text os wd "CMakeLists.txt" = Some text /\
                re_search_literal "find_package(Gnuradio" text = false /\
                re_search_literal "GR_REGISTER_COMPONENT" text = false) ->
  forall has_makefile s,
    cwd s = wd ->
    exists s', check_files part has_makefile os s = Return has_makefile s'.
Proof.
  induction part as [|f part IH]; intros Hplain hm s Hwd; [by exists s|].
  simpl. unfold bind at 1.
  assert (Hstep : exists s1, check_file f hm os s = Return hm s1 /\ cwd s1 = wd).
  { pose proof (check_file_effect os f hm s) as Heff.
    destruct Heff as [text Hf Hfile Hread Hm1 | text Hf Hfile Hread Hm1 Hm2
                     | text Hf Hfile Hread Hm1 Hm2 | Hf Hfile Hread
                     | Hnot Hdir Hkey | Hnot Hdir Hkey | Hnot Hdir];
      try (eexists; split; [reflexivity | simpl; exact Hwd]);
      subst f; rewrite Hwd in *;
      (destruct Hplain as (text' & Hread' & Hm1' & Hm2'); [by left | done | congruence]). }
  destruct Hstep as (s1 & -> & Hwd1).
  apply IH; [|done]. intros Hin. apply Hplain. by right.
Qed.

(** X4.  A root without a marker: when the listing has no regular file
    [CMakeLists.txt], or its text has neither the package-find directive
    nor the component registration, [_check_directory] answers [False],
    whatever subdirectories exist.  [setup] on such a root raises
    [ModToolException] when [os.path.abspath] has given the module path,
    and leaves line 114 with [OSError] when it has not. *)
Theorem no_marker_refused os args s files wd :
  listdir os (cwd s) (directory args) = Some files ->
  chdir os (cwd s) (directory args) = Some wd ->
  ("CMakeLists.txt" ∈ files -> isfile os wd "CMakeLists.txt" = true ->
   exists text, read_text os wd "CMakeLists.txt" = Some text /\
                re_search_literal "find_package(Gnuradio" text = false /\
                re_search_literal "GR_REGISTER_COMPONENT" text = false) ->
  (exists s', _check_directory (directory args) os s = Return false s') /\
  raised (setup args os s) =
    match abspath os (cwd s) (directory args) with
    | Some _ => Some (ModToolException no_module)
    | None => Some OSError
    end.
Proof.
  intros Hlist Hch Hplain.
  assert (Hcheck : forall t, cwd t = cwd s ->
            exists t', _check_directory (directory args) os t = Return false t').
  { intros t Ht. unfold _check_directory, bind at 1, listdir_chdir.
    rewrite Ht, Hlist, Hch. unfold bind at 1, setitem_info, modify.
    destruct (check_files_no_marker os wd files Hplain false
                (with_info <["is_component" := VBool false]> (with_cwd wd t)) eq_refl)
      as (t' & Hrun).
    unfold bind at 1. rewrite Hrun. by exists t'. }
  split; [by apply Hcheck|].
  rewrite setup_check_directory.
  destruct (abspath os (cwd s) (directory args)) as [p|]; [|done].
  destruct (Hcheck (with_info <["modpath" := VStr p]>
                      (with_dir (Some (directory args)) s)) eq_refl) as (t' & ->).
  done.
Qed.

Lemma no_marker_refused_witness :
  raised (setup default_args plain_root fresh) = Some (ModToolException no_module).
Proof.
  refine (proj2 (no_marker_refused plain_root default_args fresh
                   ["CMakeLists.txt"; "lib"; "src"] "/work/foo" eq_refl eq_refl _)).
  intros _ _. exists "project(plain) find_package(Boost)".
  split; [reflexivity|]. split; vm_compute; reflexivity.
Defined.

(** What a [True] of the loop rests on. *)
Lemma check_files_found os wd part :
  forall has_makefile s found s',
    cwd s = wd ->
    check_files part has_makefile os s = Return found s' ->
    (found = has_makefile /\ _info s' = _info s) \/
    (found = true /\ "CMakeLists.txt" ∈ part /\ isfile os wd "CMakeLists.txt" = true /\
     exists text,
       read_text os wd "CMakeLists.txt" = Some text /\
       _info s' !! "version" = Some (VStr "36") /\
       ((re_search_literal "find_package(Gnuradio" text = true /\
         _info s' !! "is_component" = _info s !! "is_component") \/
        (re_search_literal "find_package(Gnuradio" text = false /\
         re_search_literal "GR_REGISTER_COMPONENT" text = true /\
         _info s' !! "is_component" = Some (VBool true)))).
Proof.
  induction part as [|f part IH]; intros hm s found s' Hwd Hrun.
  { left. simpl in Hrun. by inversion Hrun. }
  simpl in Hrun. apply bind_Return in Hrun as (hm1 & s1 & Hstep & Hrest).
  pose proof (check_file_effect os f hm s) as Heff. rewrite Hstep in Heff.
  inversion Heff as [text Hf Hfile Hread Hm1 | text Hf Hfile Hread Hm1 Hm2
                    | text Hf Hfile Hread Hm1 Hm2 | Hf Hfile Hread
                    | Hnot Hdir Hkey | Hnot Hdir Hkey | Hnot Hdir]; subst hm1 s1.
  - (* package-find directive *)
    subst f. rewrite Hwd in *.
    destruct (IH true (with_info <["version" := VStr "36"]> s) found s' Hwd Hrest)
      as [[-> Hinfo] | (-> & Hin & _ & text' & Hread' & Hv & Hcomp)]; right.
    + split; [done|]. split; [by left|]. split; [done|]. exists text.
      split; [done|]. rewrite Hinfo. simpl. split; [by rewrite lookup_insert_eq|].
      left. split; [done|]. by rewrite lookup_insert_ne.
    + split; [done|]. split; [by left|]. split; [done|]. exists text.
      assert (text' = text) as -> by congruence.
      split; [done|]. split; [done|].
      destruct Hcomp as [[_ Hc] | (Hm1' & _)]; [|congruence].
      left. split; [done|]. rewrite Hc. simpl. by rewrite lookup_insert_ne.
  - (* component registration *)
    subst f. rewrite Hwd in *.
    destruct (IH true (with_info <["is_component" := VBool true]>
                         (with_info <["version" := VStr "36"]> s)) found s' Hwd Hrest)
      as [[-> Hinfo] | (-> & Hin & _ & text' & Hread' & Hv & Hcomp)]; right.
    + split; [done|]. split; [by left|]. split; [done|]. exists text.
      split; [done|]. rewrite Hinfo. simpl.
      split; [by rewrite lookup_insert_ne, lookup_insert_eq|].
      right. split; [done|]. split; [done|]. by rewrite lookup_insert_eq.
    + split; [done|]. split; [by left|]. split; [done|]. exists text.
      assert (text' = text) as -> by congruence.
      split; [done|]. split; [done|].
      destruct Hcomp as [[Hm1' _] | (_ & _ & Hc)]; [congruence|].
      right. by repeat split.
  - (* no marker *)
    destruct (IH _ _ _ _ Hwd Hrest) as [Hsame | (-> & Hin & Hrest')]; [by left|].
    right. split; [done|]. split; [by right | done].
  - (* a known directory *)
    destruct (IH hm (with_has_subdirs <[f := true]> s) found s' Hwd Hrest)
      as [Hsame | (-> & Hin & Hrest')]; [by left|].
    right. split; [done|]. split; [by right | done].
  - (* an unknown directory *)
    destruct (IH hm (with_skip_subdirs <[f := true]> s) found s' Hwd Hrest)
      as [Hsame | (-> & Hin & Hrest')]; [by left|].
    right. split; [done|]. split; [by right | done].
  - (* neither *)
    destruct (IH _ _ _ _ Hwd Hrest) as [Hsame | (-> & Hin & Hrest')]; [by left|].
    right. split; [done|]. split; [by right | done].
Qed.

(** X5.  Whenever [_check_directory] answers [True], the listing has a
    regular file [CMakeLists.txt] whose text carries one of the two
    markers, the version is '36', and the module is a component exactly
    when the package-find directive is missing: where both markers
    occur, the package-find directive decides. *)
Theorem accepted_has_marker os s d files wd s' :
  listdir os (cwd s) d = Some files ->
  chdir os (cwd s) d = Some wd ->
  _check_directory d os s = Return true s' ->
  "CMakeLists.txt" ∈ files /\ isfile os wd "CMakeLists.txt" = true /\
  exists text,
    read_text os wd "CMakeLists.txt" = Some text /\
    (re_search_literal "find_package(Gnuradio" text = true \/
     re_search_literal "GR_REGISTER_COMPONENT" text = true) /\
    _info s' !! "version" = Some (VStr "36") /\
    _info s' !! "is_component"
    = Some (VBool (negb (re_search_literal "find_package(Gnuradio" text))).
Proof.
  intros Hlist Hch Hrun.
  unfold _check_directory in Hrun.
  apply bind_Return in Hrun as (r & s0 & Hld & Hrun).
  unfold listdir_chdir in Hld. rewrite Hlist, Hch in Hld. inversion Hld; subst r s0.
  apply bind_Return in Hrun as ([] & s1 & Hset & Hrun).
  unfold setitem_info, modify in Hset. inversion Hset; subst s1.
  apply bind_Return in Hrun as (found & s2 & Hloop & Hrun).
  apply bind_Return in Hrun as (vals & s3 & Hattr & Hret).
  unfold attr in Hattr. inversion Hattr; subst vals s3.
  unfold ret in Hret. injection Hret as Hres Hs'. subst s2.
  destruct found; [|discriminate Hres].
  destruct (check_files_found os wd files false
              (with_info <["is_component" := VBool false]> (with_cwd wd s)) true s'
              eq_refl Hloop)
    as [[Hfalse _] | (_ & Hin & Hfile & text & Hread & Hv & Hcomp)]; [discriminate|].
  split; [done|]. split; [done|]. exists text. split; [done|].
  destruct Hcomp as [[Hm1 Hc] | (Hm1 & Hm2 & Hc)]; rewrite Hm1.
  - split; [by left|]. split; [done|]. rewrite Hc. simpl. by rewrite lookup_insert_eq.
  - split; [by right|]. by split.
Qed.

Lemma accepted_has_marker_witness :
  exists text,
    read_text component_root "/work/foo" "CMakeLists.txt" = Some text /\
    _info (final (_check_directory "." component_root fresh)) !! "is_component"
    = Some (VBool (negb (re_search_literal "find_package(Gnuradio" text))).
Proof.
  assert (Hrun : _check_directory "." component_root fresh
                 = Return true (final (_check_directory "." component_root fresh)))
    by (vm_compute; reflexivity).
  destruct (accepted_has_marker component_root fresh "."
              ["CMakeLists.txt"; "lib"; "include"; "python"] "/work/foo" _
              eq_refl eq_refl Hrun) as (_ & _ & text & Hread & _ & _ & Hcomp).
  exists text. by split.
Defined.

Lemma scanned_has_true os wd files s s' k :
  scanned os wd files s s' ->
  _has_subdirs s !! k = Some true -> _has_subdirs s' !! k = Some true.
Proof.
  intros (_ & _ & _ & _ & _ & Hhas & _) Hk.
  destruct (decide (_has_subdirs s' !! k = _has_subdirs s !! k)) as [Heq | Hne];
    [congruence | by apply Hhas].
Qed.

Lemma scanned_skip_true os wd files s s' k :
  scanned os wd files s s' ->
  _skip_subdirs s !! k = Some true -> _skip_subdirs s' !! k = Some true.
Proof.
  intros (_ & _ & _ & _ & _ & _ & Hskip) Hk.
  destruct (decide (_skip_subdirs s' !! k = _skip_subdirs s !! k)) as [Heq | Hne];
    [congruence | by apply Hskip].
Qed.

(** Every directory of the listing ends up in one of the two maps. *)
Lemma check_files_marked os wd (files part : list string) :
  forall has_makefile s found s',
    cwd s = wd -> (forall f, f ∈ part -> f ∈ files) ->
    check_files part has_makefile os s = Return found s' ->
    forall f, f ∈ part -> isdir os wd f = true ->
      isfile os wd f = false \/ f <> "CMakeLists.txt" ->
      (is_Some (_has_subdirs s !! f) -> _has_subdirs s' !! f = Some true) /\
      (_has_subdirs s !! f = None -> _skip_subdirs s' !! f = Some true).
Proof.
  induction part as [|g part IH]; intros hm s found s' Hwd Hsub Hrun f Hin Hdir Hnot.
  { by apply elem_of_nil in Hin. }
  simpl in Hrun. apply bind_Return in Hrun as (hm1 & s1 & Hstep & Hrest).
  pose proof (check_file_effect os g hm s) as Heff.
  assert (Hg : g ∈ files) by (apply Hsub; by left).
  pose proof (file_effect_scanned os files g hm s _ Hg Heff) as Hscan1.
  rewrite Hstep in Heff, Hscan1. simpl in Hscan1. rewrite Hwd in Hscan1.
  assert (Hwd1 : cwd s1 = wd) by (destruct Hscan1 as (_ & _ & Hc & _); congruence).
  assert (Hsub1 : forall f, f ∈ part -> f ∈ files) by (intros h Hh; apply Hsub; by right).
  pose proof (check_files_scanned os wd files part hm1 s1 Hwd1 Hsub1) as Hscan.
  rewrite Hrest in Hscan. simpl in Hscan.
  destruct (decide (f = g)) as [-> | Hne].
  - inversion Heff as [text Hf Hfile Hread Hm1 | text Hf Hfile Hread Hm1 Hm2
                      | text Hf Hfile Hread Hm1 Hm2 | Hf Hfile Hread
                      | Hnot' Hdir' Hkey | Hnot' Hdir' Hkey | Hnot' Hdir'];
      rewrite ?Hwd in *; try (destruct Hnot; congruence); try congruence.
    + subst hm1 s1. split; [|intros Hnone; rewrite Hnone in Hkey; by destruct Hkey].
      intros _. apply (scanned_has_true _ _ _ _ _ _ Hscan). simpl.
      by rewrite lookup_insert_eq.
    + subst hm1 s1. split; [intros Hsome; rewrite Hkey in Hsome; by destruct Hsome|].
      intros _. apply (scanned_skip_true _ _ _ _ _ _ Hscan). simpl.
      by rewrite lookup_insert_eq.
  - apply elem_of_cons in Hin as [Heq | Hin]; [done|].
    destruct (IH hm1 s1 found s' Hwd1 Hsub1 Hrest f Hin Hdir Hnot) as [Hknown Hunknown].
    destruct Hscan1 as (_ & _ & _ & _ & Hkeys & _).
    split.
    + intros Hsome. apply Hknown. by apply Hkeys.
    + intros Hnone. apply Hunknown. apply eq_None_not_Some. rewrite Hkeys.
      by apply eq_None_not_Some.
Qed.

Lemma check_directory_Return os s d files wd ok s' :
  listdir os (cwd s) d = Some files ->
  chdir os (cwd s) d = Some wd ->
  _check_directory d os s = Return ok s' ->
  exists found,
    check_files files false os
      (with_info <["is_component" := VBool false]> (with_cwd wd s)) = Return found s' /\
    ok = (if found then py_bool_list (values (_has_subdirs s')) else false).
Proof.
  intros Hlist Hch Hrun. unfold _check_directory in Hrun.
  apply bind_Return in Hrun as (r & s0 & Hld & Hrun).
  unfold listdir_chdir in Hld. rewrite Hlist, Hch in Hld.
  injection Hld as <- <-.
  apply bind_Return in Hrun as ([] & s1 & Hset & Hrun).
  unfold setitem_info, modify in Hset. injection Hset as <-.
  apply bind_Return in Hrun as (found & s2 & Hloop & Hrun).
  apply bind_Return in Hrun as (vals & s3 & Hattr & Hret).
  unfold attr in Hattr. injection Hattr as <- <-.
  unfold ret in Hret. injection Hret as Hres <-.
  exists found. by split.
Qed.

(** X6.  When [_check_directory] returns, every directory of the
    listing has been recorded: one whose name is a key of the presence
    map is marked present, any other one gets a true entry in the skip
    map. *)
Theorem listed_directories_recorded os s d files wd ok s' f :
  listdir os (cwd s) d = Some files ->
  chdir os (cwd s) d = Some wd ->
  _check_directory d os s = Return ok s' ->
  f ∈ files -> isdir os wd f = true ->
  isfile os wd f = false \/ f <> "CMakeLists.txt" ->
  (is_Some (_has_subdirs s !! f) -> _has_subdirs s' !! f = Some true) /\
  (_has_subdirs s !! f = None -> _skip_subdirs s' !! f = Some true).
Proof.
  intros Hlist Hch Hrun Hin Hdir Hnot.
  destruct (check_directory_Return os s d files wd ok s' Hlist Hch Hrun)
    as (found & Hloop & _).
  exact (check_files_marked os wd files files false
           (with_info <["is_component" := VBool false]> (with_cwd wd s)) found s' eq_refl
           (fun g Hg => Hg) Hloop f Hin Hdir Hnot).
Qed.

Lemma listed_directories_recorded_witness :
  _has_subdirs (final (_check_directory "." full_root fresh)) !! "rfnoc" = Some true.
Proof.
  assert (Hrun : _check_directory "." full_root fresh
                 = Return true (final (_check_directory "." full_root fresh)))
    by (vm_compute; reflexivity).
  refine (proj1 (listed_directories_recorded full_root fresh "."
                   ["CMakeLists.txt"; "lib"; "include"; "python"; "swig"; "grc";
                    "examples"; "rfnoc"; "docs"] "/work/foo" true _ "rfnoc"
                   eq_refl eq_refl Hrun _ eq_refl (or_introl eq_refl)) _).
  - do 7 (apply elem_of_cons; right). apply elem_of_cons. by left.
  - exists false. vm_compute; reflexivity.
Defined.

(** With a readable marker in the top-level file the loop comes back
    with [True]. *)
Lemma check_files_marker_found os wd text part :
  isfile os wd "CMakeLists.txt" = true ->
  read_text os wd "CMakeLists.txt" = Some text ->
  re_search_literal "find_package(Gnuradio" text = true \/
  re_search_literal "GR_REGISTER_COMPONENT" text = true ->
  forall has_makefile s,
    cwd s = wd ->
    exists found s',
      check_files part has_makefile os s = Return found s' /\
      (has_makefile = true \/ "CMakeLists.txt" ∈ part -> found = true).
Proof.
  intros Hfile Hread Hmark.
  induction part as [|g part IH]; intros hm s Hwd.
  { exists hm, s. split; [done|]. intros [-> | Hin]; [done | by apply elem_of_nil in Hin]. }
  simpl. unfold bind at 1.
  pose proof (check_file_effect os g hm s) as Heff.
  assert (Hstep : exists hm1 s1, check_file g hm os s = Return hm1 s1 /\ cwd s1 = wd /\
                    (hm = true \/ g = "CMakeLists.txt" -> hm1 = true)).
  { destruct Heff as [text' Hf Hfile' Hread' Hm1 | text' Hf Hfile' Hread' Hm1 Hm2
                     | text' Hf Hfile' Hread' Hm1 Hm2 | Hf Hfile' Hread'
                     | Hnot Hdir Hkey | Hnot Hdir Hkey | Hnot Hdir];
      rewrite ?Hwd in *.
    - eexists _, _. by repeat split.
    - eexists _, _. by repeat split.
    - subst g. assert (text' = text) as -> by congruence.
      destruct Hmark; congruence.
    - subst g. congruence.
    - eexists _, _. split; [done|]. split; [done|].
      intros [-> | ->]; [done | destruct Hnot; congruence].
    - eexists _, _. split; [done|]. split; [done|].
      intros [-> | ->]; [done | destruct Hnot; congruence].
    - eexists _, _. split; [done|]. split; [done|].
      intros [-> | ->]; [done | destruct Hnot; congruence]. }
  destruct Hstep as (hm1 & s1 & -> & Hwd1 & Hhm1).
  destruct (IH hm1 s1 Hwd1) as (found & s' & Hrun & Hfound).
  exists found, s'. split; [done|].
  intros [Hhm | Hin]; apply Hfound.
  - left. apply Hhm1. by left.
  - apply elem_of_cons in Hin as [<- | Hin]; [|by right].
    left. apply Hhm1. by right.
Qed.

(** X7.  A component: a root that can be listed and entered, whose
    regular file [CMakeLists.txt] registers a component and has no
    package-find directive, and which has one of the known
    subdirectories.  [_check_directory] answers [True], the version is
    '36', the module is a component and the subdirectory is marked
    present. *)
Theorem component_accepted os s d files wd text sub :
  listdir os (cwd s) d = Some files ->
  chdir os (cwd s) d = Some wd ->
  "CMakeLists.txt" ∈ files ->
  isfile os wd "CMakeLists.txt" = true ->
  read_text os wd "CMakeLists.txt" = Some text ->
  re_search_literal "find_package(Gnuradio" text = false ->
  re_search_literal "GR_REGISTER_COMPONENT" text = true ->
  sub ∈ _subdirs -> sub ∈ files -> isdir os wd sub = true ->
  is_Some (_has_subdirs s !! sub) ->
  exists s',
    _check_directory d os s = Return true s' /\
    _info s' !! "version" = Some (VStr "36") /\
    _info s' !! "is_component" = Some (VBool true) /\
    _has_subdirs s' !! sub = Some true.
Proof.
  intros Hlist Hch Hin Hfile Hread Hm1 Hm2 Hsub Hsubin Hdir Hkey.
  set (s0 := with_info <["is_component" := VBool false]> (with_cwd wd s)).
  destruct (check_files_marker_found os wd text files Hfile Hread (or_intror Hm2)
              false s0 eq_refl) as (found & s' & Hloop & Hfound).
  rewrite (Hfound (or_intror Hin)) in Hloop. clear Hfound found.
  destruct (check_files_marked os wd files files false s0 true s' eq_refl
              (fun g Hg => Hg) Hloop sub Hsubin Hdir
              (or_intror (subdir_not_cmakelists sub Hsub))) as [Hpresent _].
  specialize (Hpresent Hkey).
  exists s'. split.
  - unfold _check_directory, bind at 1, listdir_chdir. rewrite Hlist, Hch.
    unfold bind at 1, setitem_info, modify. fold s0.
    unfold bind at 1. rewrite Hloop. unfold bind, attr, ret.
    by rewrite (values_nonempty _ sub (ex_intro _ true Hpresent)).
  - destruct (check_files_found os wd files false s0 true s' eq_refl Hloop)
      as [[Hfalse _] | (_ & _ & _ & text' & Hread' & Hv & Hcomp)]; [discriminate|].
    assert (text' = text) as -> by congruence.
    destruct Hcomp as [[Hm1' _] | (_ & _ & Hc)]; [congruence|]. by repeat split.
Qed.

Lemma component_accepted_witness :
  exists s',
    _check_directory "." component_root fresh = Return true s' /\
    _info s' !! "version" = Some (VStr "36") /\
    _info s' !! "is_component" = Some (VBool true) /\
    _has_subdirs s' !! "python" = Some true.
Proof.
  apply (component_accepted component_root fresh "."
           ["CMakeLists.txt"; "lib"; "include"; "python"] "/work/foo"
           "GR_REGISTER_COMPONENT(gr-bar ENABLE_GR_BAR)" "python").
  - reflexivity.
  - reflexivity.
  - apply elem_of_cons. by left.
  - reflexivity.
  - reflexivity.
  - vm_compute; reflexivity.
  - vm_compute; reflexivity.
  - do 2 (apply elem_of_cons; right). apply elem_of_cons. by left.
  - do 3 (apply elem_of_cons; right). apply elem_of_cons. by left.
  - reflexivity.
  - exists false. vm_compute; reflexivity.
Defined.

(** ** Further properties of [setup] and its parts *)

(** X8.  [_get_mainswigfile] only reads: however it ends the object is
    as before.  Without a module name it raises [KeyError], and with a
    module name that is [None] it raises [TypeError] (from
    [modname + '.i']). *)
Theorem mainswigfile_reads_only os s :
  final (_get_mainswigfile os s) = s /\
  (_info s !! "modname" = None ->
   _get_mainswigfile os s = Raise (KeyError "modname") s) /\
  (_info s !! "modname" = Some VNone ->
   _get_mainswigfile os s = Raise TypeError s).
Proof.
  split; [apply _get_mainswigfile_readonly|].
  rewrite _get_mainswigfile_eq. split; by intros ->.
Qed.

Lemma mainswigfile_reads_only_witness :
  _get_mainswigfile full_root fresh = Raise (KeyError "modname") fresh.
Proof.
  exact (proj1 (proj2 (mainswigfile_reads_only full_root fresh)) eq_refl).
Defined.

(** X9.  The module name: one given on the command line is taken as it
    is and [get_modname] is not consulted; without one the name found by
    [get_modname] is taken; when that finds none, [ModToolException] is
    raised.  After a normal return the name is a string, and nothing
    else of the object has changed. *)
Theorem module_name_resolution os args s :
  (forall n, module_name args = Some n ->
     setup_modname args os s = Return tt (with_info <["modname" := VStr n]> s)) /\
  (forall n, module_name args = None -> get_modname os (cwd s) = Some n ->
     setup_modname args os s = Return tt (with_info <["modname" := VStr n]> s)) /\
  (module_name args = None -> get_modname os (cwd s) = None ->
     setup_modname args os s
     = Raise (ModToolException no_module) (with_info <["modname" := VNone]> s)) /\
  (forall s', setup_modname args os s = Return tt s' ->
     exists n, s' = with_info <["modname" := VStr n]> s).
Proof.
  destruct s as [has skip info file dir wd]. unfold setup_modname.
  destruct (module_name args) as [n0|]; run.
  - rewrite lookup_insert_eq. simpl.
    split; [by intros n [= ->]|]. split; [done|]. split; [done|].
    intros s' [= <-]. by exists n0.
  - destruct (get_modname os wd) as [n0|]; run; rewrite lookup_insert_eq; simpl.
    + split; [done|]. split; [by intros n _ [= ->]|]. split; [done|].
      intros s' [= <-]. by exists n0.
    + split; [done|]. split; [done|]. split; [done|]. done.
Qed.

Lemma module_name_resolution_witness :
  setup_modname args_named full_root full_module
  = Return tt (with_info <["modname" := VStr "bar"]> full_module).
Proof.
  exact (proj1 (module_name_resolution full_root args_named full_module) "bar" eq_refl).
Defined.

(** *** The skip decisions *)

(** Membership in a list given by its elements. *)
Ltac in_list := repeat (apply elem_of_cons; first [by left | right]).

Lemma skips_grown_refl s : skips_grown s s.
Proof. split; [apply only_skips_changed_refl|]. intros k Hk. by destruct Hk. Qed.

Lemma skips_grown_trans s1 s2 s3 :
  skips_grown s1 s2 -> skips_grown s2 s3 -> skips_grown s1 s3.
Proof.
  intros [Hc1 Hg1] [Hc2 Hg2]. split; [by apply (only_skips_changed_trans _ s2)|].
  intros k Hne.
  destruct (decide (_skip_subdirs s3 !! k = _skip_subdirs s2 !! k)) as [Heq | Hne2].
  - rewrite Heq in *. by apply Hg1.
  - by apply Hg2.
Qed.

Lemma skip_if_grown cond stage os s :
  readonly cond -> stage ∈ decided_stages ->
  skips_grown s (final (skip_if cond stage os s)).
Proof.
  intros Hro Hstage. unfold skip_if. rewrite bind_final.
  destruct (cond os s) as [c s1 | e s1] eqn:Hc.
  - apply readonly_Return in Hc as ->; [|done].
    destruct c; simpl; [|apply skips_grown_refl].
    split; [by repeat split|]. simpl. intros k Hk.
    apply insert_true_changed in Hk as [-> Hk]. done.
  - pose proof (Hro os s) as Hfin. rewrite Hc in Hfin. simpl in Hfin. subst s1.
    apply skips_grown_refl.
Qed.

Lemma bind_grown (c : M unit) (k : M unit) os s :
  skips_grown s (final (c os s)) ->
  (forall s1, skips_grown s1 (final (k os s1))) ->
  skips_grown s (final ((c;; k) os s)).
Proof.
  intros Hc Hk. rewrite bind_final.
  destruct (c os s) as [[] s1 | e s1]; simpl in Hc; [|done].
  by apply (skips_grown_trans _ s1).
Qed.

Lemma setup_skip_subdirs_grown os args s :
  skips_grown s (final (setup_skip_subdirs args os s)).
Proof.
  unfold setup_skip_subdirs.
  repeat (apply bind_grown;
          [apply skip_if_grown;
           [first [apply readonly_stage_condition | apply readonly_swig_condition]
           | unfold decided_stages; in_list]
          | intros ?]).
  apply skip_if_grown; [apply readonly_stage_condition | unfold decided_stages; in_list].
Qed.

(** X10.  The skip decisions of [setup], however they end, change
    nothing but the skip map, and there only entries of the six decided
    stages, which can only become true: a stage that is skipped is never
    put back. *)
Theorem skip_decisions_only_grow os args s :
  let s' := final (setup_skip_subdirs args os s) in
  _has_subdirs s' = _has_subdirs s /\ _info s' = _info s /\ _file s' = _file s /\
  _dir s' = _dir s /\ cwd s' = cwd s /\
  (forall k, _skip_subdirs s !! k = Some true -> _skip_subdirs s' !! k = Some true) /\
  (forall k, _skip_subdirs s' !! k <> _skip_subdirs s !! k ->
     _skip_subdirs s' !! k = Some true /\ k ∈ decided_stages).
Proof.
  cbv zeta.
  destruct (setup_skip_subdirs_grown os args s) as [(Hh & Hi & Hf & Hd & Hw) Hg].
  repeat (split; [done|]). split; [|done].
  intros k Hk.
  destruct (decide (_skip_subdirs (final (setup_skip_subdirs args os s)) !! k
                    = _skip_subdirs s !! k)) as [Heq | Hne];
    [congruence | by apply Hg].
Qed.

Lemma skip_decisions_only_grow_witness :
  _skip_subdirs (final (setup_skip_subdirs default_args full_root full_module)) !! "docs"
  = Some true.
Proof.
  destruct (skip_decisions_only_grow full_root default_args full_module)
    as (_ & _ & _ & _ & _ & Hkeep & _).
  apply Hkeep. vm_compute; reflexivity.
Defined.

Lemma skip_if_lookup cond stage os s s' :
  readonly cond ->
  skip_if cond stage os s = Return tt s' ->
  exists c, cond os s = Return c s /\
            only_skips_changed s s' /\
            (forall k, k <> stage -> _skip_subdirs s' !! k = _skip_subdirs s !! k) /\
            (_skip_subdirs s' !! stage = Some true <->
             _skip_subdirs s !! stage = Some true \/ c = true).
Proof.
  intros Hro H. destruct (skip_if_Return _ _ _ _ _ Hro H) as (c & Hc & ->).
  exists c. split; [done|]. destruct c; simpl.
  - split; [by repeat split|]. split; [intros k Hk; by rewrite lookup_insert_ne|].
    rewrite lookup_insert_eq. split; [by right | done].
  - split; [apply only_skips_changed_refl|]. split; [done|].
    split; [by left | by intros [? | ?]].
Qed.

Lemma stage_condition_true a k os s c :
  or_else a (not_has_subdir k) os s = Return c s ->
  (c = true <-> a = true \/ _has_subdirs s !! k = Some false).
Proof.
  intros H. apply stage_condition_value in H as [[-> ->] | (-> & h & Hh & ->)].
  - split; [by left | done].
  - rewrite Hh. destruct h; simpl; split; try done.
    + by intros [? | ?].
    + by right.
Qed.

Lemma swig_condition_true a os s c :
  or_else a
    (do main <- _get_mainswigfile;
     or_else (bool_decide (main = None)) (not_has_subdir "swig")) os s = Return c s ->
  (c = true <-> a = true \/ _get_mainswigfile os s = Return None s \/
                _has_subdirs s !! "swig" = Some false).
Proof.
  destruct a; simpl; intros H.
  { injection H as <-. split; [by left | done]. }
  apply bind_Return in H as (main & s1 & Hm & H).
  pose proof (_get_mainswigfile_Return _ _ _ _ Hm) as ->.
  rewrite Hm. destruct main as [m|]; simpl in H.
  - apply (stage_condition_true false) in H. rewrite H.
    split; [intros [? | ?]; [done | by right; right] | intros [? | [? | ?]]; [done.. | by right]].
  - injection H as <-. split; [by right; left | done].
Qed.

(** X11.  The stages lib, python, swig and grc follow their own flag and
    their own directory: after the skip decisions of [setup] such a
    stage is skipped exactly when it was skipped before, or its flag is
    set, or its directory is absent, or, for swig, there is no main
    interface file. *)
Theorem own_stage_decisions os args s s1 :
  setup_skip_subdirs args os s = Return tt s1 ->
  (_skip_subdirs s1 !! "lib" = Some true <->
   _skip_subdirs s !! "lib" = Some true \/ skip_lib args = true \/
   _has_subdirs s !! "lib" = Some false) /\
  (_skip_subdirs s1 !! "python" = Some true <->
   _skip_subdirs s !! "python" = Some true \/ skip_python args = true \/
   _has_subdirs s !! "python" = Some false) /\
  (_skip_subdirs s1 !! "swig" = Some true <->
   _skip_subdirs s !! "swig" = Some true \/ skip_swig args = true \/
   _get_mainswigfile os s = Return None s \/
   _has_subdirs s !! "swig" = Some false) /\
  (_skip_subdirs s1 !! "grc" = Some true <->
   _skip_subdirs s !! "grc" = Some true \/ skip_grc args = true \/
   _has_subdirs s !! "grc" = Some false).
Proof.
  intros H. unfold setup_skip_subdirs in H.
  apply bind_Return in H as ([] & sa & Hlib & H).
  apply bind_Return in H as ([] & sb & Hpy & H).
  apply bind_Return in H as ([] & sc & Hsw & H).
  apply bind_Return in H as ([] & sd & Hgrc & H).
  apply bind_Return in H as ([] & se & Hex & Hrf).
  apply skip_if_lookup in Hlib as (c1 & Hc1 & Ha & Ha' & Ha''); [|apply readonly_stage_condition].
  apply skip_if_lookup in Hpy as (c2 & Hc2 & Hb & Hb' & Hb''); [|apply readonly_stage_condition].
  apply skip_if_lookup in Hsw as (c3 & Hc3 & Hc & Hc' & Hc''); [|apply readonly_swig_condition].
  apply skip_if_lookup in Hgrc as (c4 & Hc4 & Hd & Hd' & Hd''); [|apply readonly_stage_condition].
  apply skip_if_lookup in Hex as (c5 & Hc5 & He & He' & _); [|apply readonly_stage_condition].
  apply skip_if_lookup in Hrf as (c6 & Hc6 & Hf & Hf' & _); [|apply readonly_stage_condition].
  apply stage_condition_true in Hc1, Hc2, Hc4.
  apply swig_condition_true in Hc3.
  pose proof (only_skips_changed_trans _ _ _ Ha Hb) as Hab.
  pose proof (only_skips_changed_trans _ _ _ Hab Hc) as Habc.
  destruct Ha as (Hha & _), Hab as (Hhb & Hib & _ & Hdb & Hwb), Habc as (Hhc & _).
  rewrite Hha in Hc2. rewrite Hhb in Hc3. rewrite Hhc in Hc4.
  assert (Hmain : _get_mainswigfile os sb = Return None sb <->
                  _get_mainswigfile os s = Return None s).
  { split; intros Hm.
    - apply (_get_mainswigfile_agree os sb s); [by rewrite Hib | done | done | done].
    - apply (_get_mainswigfile_agree os s sb); [by rewrite Hib | done | done | done]. }
  rewrite Hmain in Hc3.
  repeat split.
  - rewrite Hf', He', Hd', Hc', Hb' by discriminate. rewrite Ha'', Hc1. tauto.
  - rewrite <- Hc1. rewrite Hf', He', Hd', Hc', Hb' by discriminate. tauto.
  - rewrite Hf', He', Hd', Hc' by discriminate. rewrite Hb'', Hc2, Ha' by discriminate. tauto.
  - rewrite <- Hc2. rewrite Hf', He', Hd', Hc' by discriminate.
    rewrite Hb'', Ha' by discriminate. tauto.
  - rewrite Hf', He', Hd' by discriminate.
    rewrite Hc'', Hc3, Hb', Ha' by discriminate. tauto.
  - rewrite <- Hc3. rewrite Hf', He', Hd' by discriminate.
    rewrite Hc'', Hb', Ha' by discriminate. tauto.
  - rewrite Hf', He' by discriminate.
    rewrite Hd'', Hc4, Hc', Hb', Ha' by discriminate. tauto.
  - rewrite <- Hc4. rewrite Hf', He' by discriminate.
    rewrite Hd'', Hc', Hb', Ha' by discriminate. tauto.
Qed.

Lemma own_stage_decisions_witness :
  _skip_subdirs (final (setup_skip_subdirs args_skip_lib full_root full_module)) !! "lib"
  = Some true.
Proof.
  assert (Hrun : setup_skip_subdirs args_skip_lib full_root full_module
                 = Return tt (final (setup_skip_subdirs args_skip_lib full_root full_module)))
    by (vm_compute; reflexivity).
  apply (own_stage_decisions full_root args_skip_lib full_module _ Hrun).
  right. left. reflexivity.
Defined.

(** ** Further properties of [_setup_files] *)

(** X12.  On a normal return the Python directory is [python/<name>]
    when that is a directory and plain [python] otherwise, and the
    entries of the file set are built from the directories stored in
    [_info]: the package init and the python [CMakeLists.txt] lie in
    ['pydir'], the include [CMakeLists.txt] in ['includedir'], the qa
    source is [lib/qa_<name>.cc], and the remaining four paths are
    fixed. *)
Theorem resolved_paths os s s' n :
  _info s !! "modname" = Some (VStr n) ->
  _setup_files os s = Return tt s' ->
  exists pydir includedir,
    _info s' !! "pydir" = Some (VStr pydir) /\
    _info s' !! "includedir" = Some (VStr includedir) /\
    (isdir os (cwd s) (os_path_join "python" [n]) = true ->
       pydir = os_path_join "python" [n]) /\
    (isdir os (cwd s) (os_path_join "python" [n]) = false -> pydir = "python") /\
    _file s' !! "qalib" = Some (os_path_join "lib" ["qa_" +:+ n +:+ ".cc"]) /\
    _file s' !! "pyinit" = Some (os_path_join pydir ["__init__.py"]) /\
    _file s' !! "cmpython" = Some (os_path_join pydir ["CMakeLists.txt"]) /\
    _file s' !! "cminclude" = Some (os_path_join includedir ["CMakeLists.txt"]) /\
    _file s' !! "cmlib" = Some "lib/CMakeLists.txt" /\
    _file s' !! "cmgrc" = Some "grc/CMakeLists.txt" /\
    _file s' !! "cmswig" = Some "swig/CMakeLists.txt" /\
    _file s' !! "cmfind" = Some "cmake/Modules/rfnoc_exampleConfig.cmake".
Proof.
  intros Hn H.
  destruct (_setup_files_Return os s s' H) as (n' & c & main & (Hn' & _) & ->).
  assert (n' = n) as -> by congruence.
  exists (pydir_of os (cwd s) n), (includedir_of c (_info s !! "version") n).
  unfold resolved, resolved_files. simpl.
  split; [by lookups|]. split; [by lookups|].
  split; [unfold pydir_of; by intros ->|].
  split; [unfold pydir_of; by intros ->|].
  repeat split; by lookups.
Qed.

Lemma resolved_paths_witness :
  exists pydir includedir,
    _info (final (_setup_files full_root skipped_lib_module)) !! "pydir"
    = Some (VStr pydir) /\
    _info (final (_setup_files full_root skipped_lib_module)) !! "includedir"
    = Some (VStr includedir) /\
    _file (final (_setup_files full_root skipped_lib_module)) !! "pyinit"
    = Some (os_path_join pydir ["__init__.py"]).
Proof.
  assert (Hrun : _setup_files full_root skipped_lib_module
                 = Return tt (final (_setup_files full_root skipped_lib_module)))
    by (vm_compute; reflexivity).
  assert (Hn : _info skipped_lib_module !! "modname" = Some (VStr "foo"))
    by (vm_compute; reflexivity).
  destruct (resolved_paths full_root skipped_lib_module _ "foo" Hn Hrun)
    as (pydir & includedir & Hp & Hi & _ & _ & _ & Hinit & _).
  exists pydir, includedir. by repeat split.
Defined.

(** X13.  What a normal return of [_setup_files] leaves alone: the
    presence map, the skip map, the directory, the working directory,
    every entry of [_info] other than ['pydir'] and ['includedir'], and
    every entry of the file set other than the nine it assigns. *)
Theorem setup_files_frame os s s' :
  _setup_files os s = Return tt s' ->
  _has_subdirs s' = _has_subdirs s /\ _skip_subdirs s' = _skip_subdirs s /\
  _dir s' = _dir s /\ cwd s' = cwd s /\
  (forall k, k <> "pydir" -> k <> "includedir" -> _info s' !! k = _info s !! k) /\
  (forall k, k ∉ ["swig"; "qalib"; "pyinit"; "cmlib"; "cmgrc"; "cmpython";
                  "cminclude"; "cmswig"; "cmfind"] ->
             _file s' !! k = _file s !! k).
Proof.
  intros H.
  destruct (_setup_files_Return os s s' H) as (n & c & main & _ & ->).
  unfold resolved, resolved_files. simpl.
  repeat (split; [done|]). split.
  - intros k Hk1 Hk2. by rewrite !lookup_insert_ne.
  - intros k Hk.
    repeat (rewrite not_elem_of_cons in Hk; destruct Hk as [? Hk]).
    rewrite !lookup_insert_ne by done.
    destruct main; [by rewrite lookup_insert_ne | done].
Qed.

Lemma setup_files_frame_witness :
  _skip_subdirs (final (_setup_files full_root skipped_lib_module))
  = _skip_subdirs skipped_lib_module.
Proof.
  assert (Hrun : _setup_files full_root skipped_lib_module
                 = Return tt (final (_setup_files full_root skipped_lib_module)))
    by (vm_compute; reflexivity).
  exact (proj1 (proj2 (setup_files_frame full_root skipped_lib_module _ Hrun))).
Defined.

Lemma ready_resolved os s n c main :
  ready os s n c main -> ready os (resolved os s n c main) n c main.
Proof.
  intros (Hn & Hc & Hv & Hmain). unfold ready, resolved. simpl.
  rewrite !lookup_insert_ne by discriminate.
  repeat split; try done.
  destruct main as [m|]; [|done]. destruct Hmain as [Hsk Hm].
  split; [done|].
  apply (_get_mainswigfile_agree os s); try done.
  simpl. by rewrite !lookup_insert_ne.
Qed.

Lemma resolved_files_again main pydir includedir n f :
  resolved_files main pydir includedir n (resolved_files main pydir includedir n f)
  = resolved_files main pydir includedir n f.
Proof.
  apply map_eq. intros k. unfold resolved_files.
  destruct (decide (k = "cmfind")) as [-> | ?]; [by lookups|].
  destruct (decide (k = "cmswig")) as [-> | ?]; [by lookups|].
  destruct (decide (k = "cminclude")) as [-> | ?]; [by lookups|].
  destruct (decide (k = "cmpython")) as [-> | ?]; [by lookups|].
  destruct (decide (k = "cmgrc")) as [-> | ?]; [by lookups|].
  destruct (decide (k = "cmlib")) as [-> | ?]; [by lookups|].
  destruct (decide (k = "pyinit")) as [-> | ?]; [by lookups|].
  destruct (decide (k = "qalib")) as [-> | ?]; [by lookups|].
  destruct main as [m|].
  - destruct (decide (k = "swig")) as [-> | ?]; [by lookups|].
    by rewrite !lookup_insert_ne.
  - by rewrite !lookup_insert_ne.
Qed.

Lemma resolved_again os s n c main :
  resolved os (resolved os s n c main) n c main = resolved os s n c main.
Proof.
  unfold resolved. simpl. rewrite !lookup_insert_ne by discriminate.
  rewrite resolved_files_again. f_equal.
  apply map_eq. intros k.
  destruct (decide (k = "includedir")) as [-> | ?]; [by lookups|].
  destruct (decide (k = "pydir")) as [-> | ?]; [by lookups|].
  by rewrite !lookup_insert_ne.
Qed.

(** X14.  [_setup_files] can be run again: once it has returned, a
    second run on the resulting object, against the same file system,
    returns and changes nothing. *)
Theorem setup_files_idempotent os s s' :
  _setup_files os s = Return tt s' ->
  _setup_files os s' = Return tt s'.
Proof.
  intros H.
  destruct (_setup_files_Return os s s' H) as (n & c & main & Hready & ->).
  rewrite (_setup_files_run os _ n c main (ready_resolved os s n c main Hready)).
  by rewrite resolved_again.
Qed.

Lemma setup_files_idempotent_witness :
  _setup_files full_root (final (_setup_files full_root skipped_lib_module))
  = Return tt (final (_setup_files full_root skipped_lib_module)).
Proof.
  apply (setup_files_idempotent full_root skipped_lib_module).
  vm_compute; reflexivity.
Defined.

(** X15.  Called before the module name is known, [_setup_files] fails
    with [KeyError] for ['modname'] and has put nothing into the file
    set. *)
Theorem setup_files_needs_modname os s :
  _info s !! "modname" = None ->
  is_Some (_skip_subdirs s !! "swig") ->
  raised (_setup_files os s) = Some (KeyError "modname") /\
  _file (final (_setup_files os s)) = _file s.
Proof.
  destruct s as [has skip info file dir wd]. simpl.
  intros Hn [sk Hsk]. unfold _setup_files. run. rewrite Hsk.
  destruct sk; run.
  - rewrite lookup_insert_ne by discriminate. by rewrite Hn.
  - rewrite _get_mainswigfile_eq. simpl. by rewrite Hn.
Qed.

Lemma setup_files_needs_modname_witness :
  raised (_setup_files full_root fresh) = Some (KeyError "modname").
Proof.
  refine (proj1 (setup_files_needs_modname full_root fresh _ _)).
  - reflexivity.
  - exists false. vm_compute; reflexivity.
Defined.

(** ** [setup] as a whole *)

Lemma bind_run {A B} (c : M A) (k : A -> M B) os s a s1 :
  c os s = Return a s1 -> bind c k os s = k a os s1.
Proof. intros H. unfold bind. by rewrite H. Qed.

Lemma check_files_raises os part :
  forall has_makefile s e s',
    check_files part has_makefile os s = Raise e s' -> e = IOError.
Proof.
  induction part as [|f part IH]; intros hm s e s' H; [discriminate H|].
  simpl in H. unfold bind in H.
  pose proof (check_file_effect os f hm s) as Heff.
  destruct (check_file f hm os s) as [hm1 s1 | e1 s1]; [by apply (IH hm1 s1 e s')|].
  inversion Heff; congruence.
Qed.

Lemma check_directory_raises os d s e s' :
  _check_directory d os s = Raise e s' -> e = IOError.
Proof.
  unfold _check_directory, bind at 1, listdir_chdir. intros H.
  destruct (listdir os (cwd s) d) as [files|]; [|discriminate H].
  destruct (chdir os (cwd s) d) as [wd|]; [|discriminate H].
  unfold bind at 1, setitem_info, modify in H. unfold bind at 1 in H.
  destruct (check_files files false os _) as [found s1 | e1 s1] eqn:Hloop;
    [discriminate H|].
  injection H as <- <-. by apply check_files_raises in Hloop.
Qed.

(** What an accepted directory guarantees to the rest of [setup]. *)
Lemma check_directory_accepted os d s s' :
  _check_directory d os s = Return true s' ->
  _file s' = _file s /\ _dir s' = _dir s /\
  (forall k, k <> "version" -> k <> "is_component" -> _info s' !! k = _info s !! k) /\
  (forall k, is_Some (_has_subdirs s !! k) -> is_Some (_has_subdirs s' !! k)) /\
  (forall k, is_Some (_skip_subdirs s !! k) -> is_Some (_skip_subdirs s' !! k)) /\
  chdir os (cwd s) d = Some (cwd s') /\
  _info s' !! "version" = Some (VStr "36") /\
  exists b, _info s' !! "is_component" = Some (VBool b).
Proof.
  intros H.
  assert (exists files wd, listdir os (cwd s) d = Some files /\
                           chdir os (cwd s) d = Some wd) as (files & wd & Hlist & Hch).
  { unfold _check_directory, bind at 1, listdir_chdir in H.
    destruct (listdir os (cwd s) d) as [files|]; [|discriminate H].
    destruct (chdir os (cwd s) d) as [wd|]; [|discriminate H]. by exists files, wd. }
  destruct (check_directory_Return os s d files wd true s' Hlist Hch H)
    as (found & Hloop & Hres).
  destruct found; [|discriminate Hres].
  set (s0 := with_info <["is_component" := VBool false]> (with_cwd wd s)) in *.
  pose proof (check_files_scanned os wd files files false s0 eq_refl (fun f Hf => Hf))
    as Hscan.
  rewrite Hloop in Hscan. simpl in Hscan.
  destruct Hscan as (Hfile & Hdir & Hcwd & Hinfo & Hkeys & _ & Hskip).
  split; [done|]. split; [done|].
  split; [intros k Hk1 Hk2; rewrite Hinfo by done; simpl; by rewrite lookup_insert_ne|].
  split; [intros k Hk; by apply Hkeys|].
  split.
  { intros k Hk.
    destruct (decide (_skip_subdirs s' !! k = _skip_subdirs s0 !! k)) as [Heq | Hne];
      [by rewrite Heq | destruct (Hskip k Hne) as [-> _]; by eexists]. }
  split; [by rewrite Hcwd|].
  destruct (check_files_found os wd files false s0 true s' eq_refl Hloop)
    as [[Hfalse _] | (_ & _ & _ & text & _ & Hv & Hcomp)]; [discriminate|].
  split; [done|].
  destruct Hcomp as [[_ Hc] | (_ & _ & Hc)]; [|by eexists].
  exists false. rewrite Hc. simpl. by rewrite lookup_insert_eq.
Qed.

Lemma setup_modname_cases os args s :
  (exists n, setup_modname args os s = Return tt (with_info <["modname" := VStr n]> s) /\
             (module_name args = Some n \/
              (module_name args = None /\ get_modname os (cwd s) = Some n))) \/
  setup_modname args os s
  = Raise (ModToolException no_module) (with_info <["modname" := VNone]> s).
Proof.
  destruct s as [has skip info file dir wd]. unfold setup_modname.
  destruct (module_name args) as [n0|]; run.
  - rewrite lookup_insert_eq. simpl. left. exists n0. split; [done | by left].
  - destruct (get_modname os wd) as [n0|] eqn:Hg; run; rewrite lookup_insert_eq; simpl.
    + left. exists n0. split; [done | by right].
    + by right.
Qed.

Lemma skip_if_returns cond stage os s c :
  cond os s = Return c s ->
  exists s', skip_if cond stage os s = Return tt s' /\ only_skips_changed s s' /\
             (forall k, is_Some (_skip_subdirs s !! k) -> is_Some (_skip_subdirs s' !! k)).
Proof.
  intros Hc. unfold skip_if, bind. rewrite Hc. destruct c; simpl.
  - eexists. split; [done|]. split; [by repeat split|].
    intros k Hk. simpl. destruct (decide (stage = k)) as [<- | Hne];
      [by rewrite lookup_insert_eq | by rewrite lookup_insert_ne].
  - exists s. split; [done|]. split; [apply only_skips_changed_refl | done].
Qed.

Lemma stage_condition_returns a k os s :
  is_Some (_has_subdirs s !! k) ->
  exists c, or_else a (not_has_subdir k) os s = Return c s.
Proof.
  destruct s as [has skip info file dir wd]. simpl. intros [h Hh].
  destruct a; simpl; [by eexists|]. unfold not_has_subdir. run. rewrite Hh. by eexists.
Qed.

Lemma swig_condition_returns a os s n d :
  _info s !! "modname" = Some (VStr n) -> _dir s = Some d ->
  is_Some (_has_subdirs s !! "swig") ->
  exists c,
    or_else a
      (do main <- _get_mainswigfile;
       or_else (bool_decide (main = None)) (not_has_subdir "swig")) os s = Return c s.
Proof.
  intros Hn Hd Hk. destruct a; simpl; [by eexists|].
  unfold bind. rewrite (_get_mainswigfile_run os s n d Hn Hd).
  destruct (bool_decide _); simpl; [by eexists|].
  apply (stage_condition_returns false "swig" os s Hk).
Qed.

(** With the keys of the stages in the presence map, a module name and
    a directory, the skip decisions always return. *)
Lemma setup_skip_subdirs_returns os args s n d :
  _info s !! "modname" = Some (VStr n) -> _dir s = Some d ->
  (forall k, k ∈ _subdirs -> is_Some (_has_subdirs s !! k)) ->
  exists s', setup_skip_subdirs args os s = Return tt s' /\ only_skips_changed s s' /\
             (forall k, is_Some (_skip_subdirs s !! k) -> is_Some (_skip_subdirs s' !! k)).
Proof.
  intros Hn Hd Hkeys. unfold setup_skip_subdirs.
  assert (Hstage : forall k, k ∈ _subdirs -> forall a t, only_skips_changed s t ->
            exists c, or_else a (not_has_subdir k) os t = Return c t).
  { intros k Hk a t (Hh & _). apply stage_condition_returns. rewrite Hh. by apply Hkeys. }
  assert (Hswig : forall a t, only_skips_changed s t ->
            exists c, or_else a
              (do main <- _get_mainswigfile;
               or_else (bool_decide (main = None)) (not_has_subdir "swig")) os t
            = Return c t).
  { intros a t (Hh & Hi & _ & Hdt & _).
    apply (swig_condition_returns a os t n d); [by rewrite Hi | by rewrite Hdt|].
    rewrite Hh. apply Hkeys. unfold _subdirs. in_list. }
  destruct (Hstage "lib" ltac:(unfold _subdirs; in_list) (skip_lib args) s
              (only_skips_changed_refl s)) as (c1 & Hc1).
  destruct (skip_if_returns _ "lib" os s c1 Hc1) as (sa & Ha & Hsa & Hka).
  destruct (Hstage "python" ltac:(unfold _subdirs; in_list) (skip_python args) sa Hsa)
    as (c2 & Hc2).
  destruct (skip_if_returns _ "python" os sa c2 Hc2) as (sb & Hb & Hsb & Hkb).
  pose proof (only_skips_changed_trans _ _ _ Hsa Hsb) as Hsb'.
  destruct (Hswig (skip_swig args) sb Hsb') as (c3 & Hc3).
  destruct (skip_if_returns _ "swig" os sb c3 Hc3) as (sc & Hc & Hsc & Hkc).
  pose proof (only_skips_changed_trans _ _ _ Hsb' Hsc) as Hsc'.
  destruct (Hstage "grc" ltac:(unfold _subdirs; in_list) (skip_grc args) sc Hsc')
    as (c4 & Hc4).
  destruct (skip_if_returns _ "grc" os sc c4 Hc4) as (sd & Hd4 & Hsd & Hkd).
  pose proof (only_skips_changed_trans _ _ _ Hsc' Hsd) as Hsd'.
  destruct (Hstage "examples" ltac:(unfold _subdirs; in_list) (skip_grc args) sd Hsd')
    as (c5 & Hc5).
  destruct (skip_if_returns _ "examples" os sd c5 Hc5) as (se & He & Hse & Hke).
  pose proof (only_skips_changed_trans _ _ _ Hsd' Hse) as Hse'.
  destruct (Hstage "grc" ltac:(unfold _subdirs; in_list) (skip_grc args) se Hse')
    as (c6 & Hc6).
  destruct (skip_if_returns _ "rfnoc" os se c6 Hc6) as (sf & Hf & Hsf & Hkf).
  exists sf. split.
  - rewrite (bind_run _ _ _ _ _ _ Ha), (bind_run _ _ _ _ _ _ Hb),
      (bind_run _ _ _ _ _ _ Hc), (bind_run _ _ _ _ _ _ Hd4), (bind_run _ _ _ _ _ _ He).
    exact Hf.
  - split; [by apply (only_skips_changed_trans _ _ _ Hse')|].
    intros k Hk. by apply Hkf, Hke, Hkd, Hkc, Hkb, Hka.
Qed.

(** A swig stage left active has its main interface file. *)
Lemma active_swig_has_main os args s s1 :
  setup_skip_subdirs args os s = Return tt s1 ->
  _skip_subdirs s1 !! "swig" = Some false ->
  exists m, _get_mainswigfile os s1 = Return (Some m) s1.
Proof.
  intros H Hswig. unfold setup_skip_subdirs in H.
  apply bind_Return in H as ([] & sa & Hlib & H).
  apply bind_Return in H as ([] & sb & Hpy & H).
  apply bind_Return in H as ([] & sc & Hsw & H).
  apply bind_Return in H as ([] & sd & Hgrc & H).
  apply bind_Return in H as ([] & se & Hex & Hrf).
  apply skip_if_lookup in Hsw as (c3 & Hc3 & Hc & _ & Hc''); [|apply readonly_swig_condition].
  apply skip_if_lookup in Hgrc as (c4 & _ & Hd & Hd' & _); [|apply readonly_stage_condition].
  apply skip_if_lookup in Hex as (c5 & _ & He & He' & _); [|apply readonly_stage_condition].
  apply skip_if_lookup in Hrf as (c6 & _ & Hf & Hf' & _); [|apply readonly_stage_condition].
  rewrite Hf', He', Hd' in Hswig by discriminate.
  destruct c3; [assert (Some false = Some true) by (rewrite <- Hswig; apply Hc''; by right);
                discriminate|].
  destruct (swig_condition_false _ _ _ Hc3) as (_ & m & Hm).
  exists m.
  destruct (only_skips_changed_trans _ _ _ Hc
              (only_skips_changed_trans _ _ _ Hd (only_skips_changed_trans _ _ _ He Hf)))
    as (_ & Hinfo & _ & Hdir & Hcwd).
  apply (_get_mainswigfile_agree os sb s1); [by rewrite Hinfo | done | done | done].
Qed.

(** What [setup] does once the directory is accepted: it stops with
    [ModToolException] when no module name is found, and otherwise runs
    to the end. *)
Lemma setup_after_check os args s1 d p b :
  _dir s1 = Some d ->
  _info s1 !! "modpath" = Some (VStr p) ->
  _info s1 !! "version" = Some (VStr "36") ->
  _info s1 !! "is_component" = Some (VBool b) ->
  (forall k, k ∈ _subdirs -> is_Some (_has_subdirs s1 !! k)) ->
  is_Some (_skip_subdirs s1 !! "swig") ->
  raised ((setup_modname args;;
           setup_version;;
           setup_skip_subdirs args;;
           setitem_info "blockname" (of_option (block_name args));;
           _setup_files;;
           setitem_info "yes" (VBool (yes args))) os s1)
  = Some (ModToolException no_module) \/
  exists s' n,
    (setup_modname args;;
     setup_version;;
     setup_skip_subdirs args;;
     setitem_info "blockname" (of_option (block_name args));;
     _setup_files;;
     setitem_info "yes" (VBool (yes args))) os s1 = Return tt s' /\
    _dir s' = Some d /\
    _info s' !! "modpath" = Some (VStr p) /\
    _info s' !! "modname" = Some (VStr n) /\
    (module_name args = Some n \/
     (module_name args = None /\ get_modname os (cwd s1) = Some n)) /\
    (_info s' !! "version" = Some (VStr "36") \/
     _info s' !! "version" = Some (VStr "37")) /\
    _info s' !! "is_component" = Some (VBool b) /\
    _info s' !! "blockname" = Some (of_option (block_name args)) /\
    _info s' !! "yes" = Some (VBool (yes args)) /\
    (exists pydir, _info s' !! "pydir" = Some (VStr pydir)) /\
    (exists includedir, _info s' !! "includedir" = Some (VStr includedir)) /\
    (forall k, k ∈ ["qalib"; "pyinit"; "cmlib"; "cmgrc"; "cmpython";
                    "cminclude"; "cmswig"; "cmfind"] -> is_Some (_file s' !! k)) /\
    cwd s' = cwd s1.
Proof.
  intros Hd Hp Hv Hc Hkeys Hswig.
  destruct (setup_modname_cases os args s1) as [(n & Hmod & Hsrc) | Hraise].
  2: { left. unfold bind at 1. by rewrite Hraise. }
  right. rewrite (bind_run _ _ _ _ _ _ Hmod).
  set (s2 := with_info <["modname" := VStr n]> s1).
  assert (Hn2 : _info s2 !! "modname" = Some (VStr n)) by (simpl; by rewrite lookup_insert_eq).
  assert (Hv2 : _info s2 !! "version" = Some (VStr "36"))
    by (simpl; by rewrite lookup_insert_ne).
  rewrite (bind_run _ _ _ _ _ _ (setup_version_run os s2 n (VStr "36") Hn2 Hv2)).
  set (s3 := if bool_decide (VStr "36" = VStr "36") && per_module_include os (cwd s2) n
             then with_info <["version" := VStr "37"]> s2 else s2).
  assert (Hs3 : cwd s3 = cwd s1 /\ _dir s3 = Some d /\ _has_subdirs s3 = _has_subdirs s1 /\
                _skip_subdirs s3 = _skip_subdirs s1 /\
                _info s3 !! "modpath" = Some (VStr p) /\
                _info s3 !! "modname" = Some (VStr n) /\
                _info s3 !! "is_component" = Some (VBool b) /\
                (_info s3 !! "version" = Some (VStr "36") \/
                 _info s3 !! "version" = Some (VStr "37"))).
  { unfold s3. destruct (_ && _); simpl; lookups.
    - do 7 (split; [done|]). by right.
    - do 7 (split; [done|]). by left. }
  clearbody s3. destruct Hs3 as (Hw3 & Hd3 & Hh3 & Hsk3 & Hp3 & Hn3 & Hc3 & Hv3).
  destruct (setup_skip_subdirs_returns os args s3 n d Hn3 Hd3) as (s4 & Hskip & Hch4 & Hk4).
  { intros k Hk. rewrite Hh3. by apply Hkeys. }
  rewrite (bind_run _ _ _ _ _ _ Hskip).
  destruct Hch4 as (Hh4 & Hi4 & Hf4 & Hd4 & Hw4).
  set (s5 := with_info <["blockname" := of_option (block_name args)]> s4).
  assert (Hblock : setitem_info "blockname" (of_option (block_name args)) os s4
                   = Return tt s5) by done.
  rewrite (bind_run _ _ _ _ _ _ Hblock).
  assert (Hsw4 : is_Some (_skip_subdirs s4 !! "swig")) by (apply Hk4; by rewrite Hsk3).
  assert (exists main, ready os s5 n (VBool b) main) as (main & Hready).
  { destruct Hsw4 as [sk Hsk4].
    assert (Hinfo5 : forall k, k <> "blockname" -> _info s5 !! k = _info s3 !! k).
    { intros k Hk. unfold s5. simpl. rewrite lookup_insert_ne by done. by rewrite Hi4. }
    destruct sk.
    - exists None. unfold ready. rewrite !Hinfo5 by discriminate.
      repeat split; try done. destruct Hv3 as [-> | ->]; by eexists.
    - destruct (active_swig_has_main os args s3 s4 Hskip Hsk4) as (m & Hm).
      exists (Some m). unfold ready. rewrite !Hinfo5 by discriminate.
      repeat split; try done; [destruct Hv3 as [-> | ->]; by eexists|].
      apply (_get_mainswigfile_agree os s4 s5); try done.
      unfold s5. simpl. by rewrite lookup_insert_ne. }
  rewrite (bind_run _ _ _ _ _ _ (_setup_files_run os s5 n (VBool b) main Hready)).
  eexists _, n. split; [reflexivity|].
  unfold resolved, s5. simpl.
  split; [by rewrite Hd4|].
  split; [lookups; by rewrite Hi4|].
  split; [lookups; by rewrite Hi4|].
  split; [done|].
  split; [lookups; by rewrite Hi4|].
  split; [lookups; by rewrite Hi4|].
  split; [by lookups|].
  split; [by lookups|].
  split; [eexists; by lookups|].
  split; [eexists; by lookups|].
  split; [intros k Hk; by apply resolved_files_lookup|].
  by rewrite Hw4.
Qed.

(** X16.  The ways [setup], up to the assignment of ['yes'], can end
    on an object built by [__init__] (presence and skip maps with the
    keys of the known subdirectories).  When [os.path.abspath] raises
    [OSError] at line 114, that error leaves [setup] with only the
    directory stored.  When it gives the module path, [setup] returns,
    or it raises [ModToolException] with the message that no module was
    found, or reading [CMakeLists.txt] failed.  No [KeyError] and no
    [TypeError] leaves [setup]. *)
Theorem setup_failure_modes os args s :
  (forall k, k ∈ _subdirs ->
     is_Some (_has_subdirs s !! k) /\ is_Some (_skip_subdirs s !! k)) ->
  match abspath os (cwd s) (directory args) with
  | None => setup args os s = Raise OSError (with_dir (Some (directory args)) s)
  | Some _ =>
      raised (setup args os s) = None \/
      raised (setup args os s) = Some IOError \/
      raised (setup args os s) = Some (ModToolException no_module)
  end.
Proof.
  intros Hkeys. rewrite setup_check_directory.
  destruct (abspath os (cwd s) (directory args)) as [p|]; [|done].
  set (s0 := with_info <["modpath" := VStr p]>
               (with_dir (Some (directory args)) s)).
  destruct (_check_directory (directory args) os s0) as [[|] s1 | e s1] eqn:Hcheck.
  - destruct (check_directory_accepted os _ s0 s1 Hcheck)
      as (_ & Hdir & Hinfo & Hhas & Hskip & _ & Hv & b & Hc).
    destruct (setup_after_check os args s1 (directory args)
                p b) as [Hraise | (s' & n & -> & _)];
      try done.
    + rewrite Hinfo by discriminate. simpl. by rewrite lookup_insert_eq.
    + intros k Hk. apply Hhas. by apply Hkeys.
    + apply Hskip. apply Hkeys. unfold _subdirs. in_list.
    + by right; right.
    + by left.
  - by right; right.
  - right; left. apply check_directory_raises in Hcheck as ->. done.
Qed.

Lemma fresh_keys wd k :
  k ∈ _subdirs ->
  is_Some (_has_subdirs (__init__ wd) !! k) /\ is_Some (_skip_subdirs (__init__ wd) !! k).
Proof. intros Hk. simpl. rewrite (all_false_lookup k Hk). split; by eexists. Qed.

Lemma setup_failure_modes_witness :
  (raised (setup default_args full_root fresh) = None \/
   raised (setup default_args full_root fresh) = Some IOError \/
   raised (setup default_args full_root fresh) = Some (ModToolException no_module)) /\
  setup default_args removed_root fresh = Raise OSError (with_dir (Some ".") fresh).
Proof.
  split.
  - apply (setup_failure_modes full_root default_args fresh).
    intros k Hk. by apply fresh_keys.
  - apply (setup_failure_modes removed_root default_args fresh).
    intros k Hk. by apply fresh_keys.
Defined.

(** X17.  What a caller finds after [setup] has returned on such an
    object: the directory of the command line and the module path
    [os.path.abspath] has given for it, the
    process standing in that directory, a module name that is a string
    (the one of the command line if given, else the one [get_modname]
    finds there), version '36' or '37', a boolean component flag, the
    block name and the answer flag of the command line, a Python and an
    include directory, and the eight unconditional entries of the file
    set. *)
Theorem setup_postcondition os args s s' :
  (forall k, k ∈ _subdirs ->
     is_Some (_has_subdirs s !! k) /\ is_Some (_skip_subdirs s !! k)) ->
  setup args os s = Return tt s' ->
  _dir s' = Some (directory args) /\
  chdir os (cwd s) (directory args) = Some (cwd s') /\
  (exists p, abspath os (cwd s) (directory args) = Some p /\
             _info s' !! "modpath" = Some (VStr p)) /\
  (exists n, _info s' !! "modname" = Some (VStr n) /\
             (module_name args = Some n \/
              (module_name args = None /\ get_modname os (cwd s') = Some n))) /\
  (_info s' !! "version" = Some (VStr "36") \/
   _info s' !! "version" = Some (VStr "37")) /\
  (exists b, _info s' !! "is_component" = Some (VBool b)) /\
  _info s' !! "blockname" = Some (of_option (block_name args)) /\
  _info s' !! "yes" = Some (VBool (yes args)) /\
  (exists pydir, _info s' !! "pydir" = Some (VStr pydir)) /\
  (exists includedir, _info s' !! "includedir" = Some (VStr includedir)) /\
  (forall k, k ∈ ["qalib"; "pyinit"; "cmlib"; "cmgrc"; "cmpython";
                  "cminclude"; "cmswig"; "cmfind"] -> is_Some (_file s' !! k)).
Proof.
  intros Hkeys H. rewrite setup_check_directory in H.
  destruct (abspath os (cwd s) (directory args)) as [p|]; [|discriminate H].
  set (s0 := with_info <["modpath" := VStr p]>
               (with_dir (Some (directory args)) s)) in *.
  destruct (_check_directory (directory args) os s0) as [[|] s1 | e s1] eqn:Hcheck;
    try discriminate H.
  destruct (check_directory_accepted os _ s0 s1 Hcheck)
    as (_ & Hdir & Hinfo & Hhas & Hskip & Hch & Hv & b & Hc).
  destruct (setup_after_check os args s1 (directory args)
              p b)
    as [Hraise | (s'' & n & Hrun & Hpost)]; try done.
  - rewrite Hinfo by discriminate. simpl. by rewrite lookup_insert_eq.
  - intros k Hk. apply Hhas. by apply Hkeys.
  - apply Hskip. apply Hkeys. unfold _subdirs. in_list.
  - rewrite H in Hraise. discriminate Hraise.
  - rewrite Hrun in H. injection H as <-.
    destruct Hpost as (Hd' & Hp' & Hn' & Hsrc & Hv' & Hc' & Hb' & Hy' & Hpy & Hinc & Hfiles & Hcwd).
    rewrite Hcwd.
    split; [done|]. split; [done|]. split; [by exists p|].
    split; [by exists n|]. split; [done|]. split; [by exists b|].
    by repeat (split; [done|]).
Qed.

Lemma setup_postcondition_witness :
  _dir (final (setup default_args full_root fresh)) = Some "." /\
  exists n, _info (final (setup default_args full_root fresh)) !! "modname"
            = Some (VStr n).
Proof.
  assert (Hrun : setup default_args full_root fresh
                 = Return tt (final (setup default_args full_root fresh)))
    by (vm_compute; reflexivity).
  destruct (setup_postcondition full_root default_args fresh _
              (fun k Hk => fresh_keys "/work/foo" k Hk) Hrun)
    as (Hdir & _ & _ & (n & Hn & _) & _).
  split; [exact Hdir | by exists n].
Defined.

(** ** [get_class_dict] *)

Example tool_commands :
  get_class_dict tool_globals !! "rm" = Some remove_class /\
  get_class_dict tool_globals !! "base" = Some base_class /\
  get_class_dict tool_globals !! "commit" = None.
Proof. split; [|split]; vm_compute; reflexivity. Qed.

Lemma register_aliases_lookup (c : command_class) (names : list string) :
  forall (d : gmap string command_class) (k : string),
    fold_left (fun d alias => <[alias := c]> d) names d !! k
    = if decide (k ∈ names) then Some c else d !! k.
Proof.
  induction names as [|a names IH]; intros d k; simpl.
  { destruct (decide (k ∈ [])) as [Hin | _]; [by apply elem_of_nil in Hin | done]. }
  rewrite IH.
  destruct (decide (k ∈ names)) as [Hin | Hnin].
  - rewrite decide_True; [done | by right].
  - destruct (decide (k = a)) as [-> | Hne].
    + rewrite lookup_insert_eq. rewrite decide_True; [done | by left].
    + rewrite lookup_insert_ne by done. rewrite decide_False; [done|].
      intros Hin. apply elem_of_cons in Hin as [? | ?]; done.
Qed.

(** One round of the loop, key by key. *)
Lemma register_lookup (d : gmap string command_class) (glob : pyglobal) (k : string) :
  register d glob !! k =
    match glob with
    | Subclass c => if decide (k ∈ command_names c) then Some c else d !! k
    | _ => d !! k
    end.
Proof.
  destruct glob as [c | |]; try done.
  unfold register, command_names. destruct (aliases c) as [names|]; simpl.
  - rewrite register_aliases_lookup.
    destruct (decide (k ∈ names)) as [Hin | Hnin].
    + rewrite decide_True; [done | by right].
    + destruct (decide (k = name c)) as [-> | Hne].
      * rewrite lookup_insert_eq. rewrite decide_True; [done | by left].
      * rewrite lookup_insert_ne by done. rewrite decide_False; [done|].
        intros Hin. apply elem_of_cons in Hin as [? | ?]; done.
  - destruct (decide (k = name c)) as [-> | Hne].
    + rewrite lookup_insert_eq. rewrite decide_True; [done | by left].
    + rewrite lookup_insert_ne by done. rewrite decide_False; [done|].
      intros Hin. apply elem_of_cons in Hin as [? | Hin]; [done|].
      by apply elem_of_nil in Hin.
Qed.

Lemma fold_register_sound (globs : list pyglobal) :
  forall (d : gmap string command_class) (k : string) (c : command_class),
    fold_left register globs d !! k = Some c ->
    d !! k = Some c \/ (Subclass c ∈ globs /\ k ∈ command_names c).
Proof.
  induction globs as [|g globs IH]; intros d k c H; cbn [fold_left] in H; [by left|].
  apply IH in H as [H | [Hin Hk]]; [|right; split; [by right | done]].
  rewrite register_lookup in H. destruct g as [c' | |]; try by left.
  destruct (decide (k ∈ command_names c')) as [Hk | Hk]; [|by left].
  injection H as ->. right. split; [by left | done].
Qed.

Lemma fold_register_unclaimed (globs : list pyglobal) (k : string) :
  (forall c, Subclass c ∈ globs -> k ∉ command_names c) ->
  forall d : gmap string command_class, fold_left register globs d !! k = d !! k.
Proof.
  induction globs as [|g globs IH]; intros Hfree d; cbn [fold_left]; [done|].
  rewrite IH by (intros c Hc; apply Hfree; by right).
  rewrite register_lookup. destruct g as [c | |]; try done.
  rewrite decide_False; [done|]. apply Hfree. by left.
Qed.

(** X18.  Every entry of the dictionary built by [get_class_dict] is a
    class derived from [ModTool] that occurs among the values passed in,
    entered under its own name or one of its aliases; values that are no
    such class leave no entry. *)
Theorem class_dict_sound (the_globals : list pyglobal) (k : string) (c : command_class) :
  get_class_dict the_globals !! k = Some c ->
  Subclass c ∈ the_globals /\ k ∈ command_names c.
Proof.
  intros H. apply fold_register_sound in H as [H | H]; [|done].
  by rewrite lookup_empty in H.
Qed.

Lemma class_dict_sound_witness :
  Subclass remove_class ∈ tool_globals /\ "del" ∈ command_names remove_class.
Proof.
  apply (class_dict_sound tool_globals "del" remove_class).
  vm_compute; reflexivity.
Defined.

(** X19.  A class derived from [ModTool] is found under its name and
    under each of its aliases, also when it has no [aliases] attribute
    at all, unless a class further down the values claims the same
    command name: the last class to claim a name gets it. *)
Theorem class_dict_last_wins (before after : list pyglobal) (c : command_class)
    (k : string) :
  k ∈ command_names c ->
  (forall c', Subclass c' ∈ after -> k ∉ command_names c') ->
  get_class_dict (before ++ Subclass c :: after) !! k = Some c.
Proof.
  intros Hk Hfree. unfold get_class_dict. rewrite fold_left_app. cbn [fold_left].
  rewrite (fold_register_unclaimed after k Hfree).
  rewrite register_lookup. by rewrite decide_True.
Qed.

Lemma class_dict_last_wins_witness :
  get_class_dict ([NotAClass] ++ Subclass base_class
                    :: [OtherClass; Subclass add_class; NotAClass; Subclass remove_class])
    !! "base" = Some base_class.
Proof.
  apply class_dict_last_wins.
  - apply elem_of_cons. by left.
  - intros c' Hc'.
    repeat (apply elem_of_cons in Hc' as [Hc' | Hc']; [try discriminate Hc'|]).
    + injection Hc' as ->. vm_compute. intros Hin.
      repeat (apply elem_of_cons in Hin as [Hin | Hin]; [discriminate Hin|]).
      by apply elem_of_nil in Hin.
    + injection Hc' as ->. vm_compute. intros Hin.
      repeat (apply elem_of_cons in Hin as [Hin | Hin]; [discriminate Hin|]).
      by apply elem_of_nil in Hin.
    + by apply elem_of_nil in Hc'.
Defined.
